(** * Settings adapter and repository pagination of the OpenHands frontend

    A shallow embedding of
    - [frontend/src/types/settings.ts]          (module [SettingsTypes]),
    - [frontend/src/hooks/query/use-settings.ts] (module [UseSettings]),
    - [frontend/src/api/github.ts]               (module [GitHub]),
    over a small model of the JavaScript values these files handle
    (module [JS]).

    Conventions.  A JavaScript [number] is an integer of [Z]: the code only
    copies numbers, compares them with [404], tests them for truthiness and
    adds [1] to a page number, all of which are exact on integers.  A
    promise is the outcome it settles to.  The collaborators that live
    outside these files (the HTTP client, the query cache, the link-header
    parser, the default settings constant) are parameters; the retry loop
    of the query library, which the hook steers through its [retry]
    option, is modelled in [QueryLibrary]. *)

From Stdlib Require Import ZArith Ascii String List Bool Lia.
From stdpp Require Import base option list strings gmap fin_maps.

#[local] Set Warnings "-register-all".
#[local] Open Scope string_scope.
#[local] Open Scope list_scope.
#[local] Open Scope Z_scope.

(* ===================================================================== *)
(** ** JavaScript values, objects and promises *)
(* ===================================================================== *)

Module JS.

(** A value.  An object carries its identity [id] next to its properties:
    [Object.is] on two objects compares the identities only.  None of the
    code modelled here writes to an object it has received, so an object's
    properties can travel with it. *)
Inductive value : Type :=
  | VUndefined
  | VNull
  | VBool (b : bool)
  | VNum (n : Z)
  | VStr (s : string)
  | VObj (id : nat) (fields : gmap string value).

(** The properties of an object whose identity plays no role. *)
Abbreviation obj := (gmap string value).

(** [o.k]: reading a property that is not there gives [undefined]. *)
Definition prop (o : obj) (k : string) : value := default VUndefined (o !! k).

Definition nonempty (s : string) : bool :=
  match s with
  | EmptyString => false
  | String _ _ => true
  end.

(** ToBoolean. *)
Definition truthy (v : value) : bool :=
  match v with
  | VUndefined | VNull => false
  | VBool b => b
  | VNum n => negb (n =? 0)
  | VStr s => nonempty s
  | VObj _ _ => true
  end.

(** Truthiness of a [number | null] and of a [string | undefined]. *)
Definition truthy_num (n : option Z) : bool :=
  match n with
  | Some n => negb (n =? 0)
  | None => false
  end.

Definition truthy_str (s : option string) : bool :=
  match s with
  | Some s => nonempty s
  | None => false
  end.

(** [Object.is], the comparison React applies to dependency arrays. *)
Definition object_is (a b : value) : bool :=
  match a, b with
  | VUndefined, VUndefined => true
  | VNull, VNull => true
  | VBool x, VBool y => Bool.eqb x y
  | VNum x, VNum y => x =? y
  | VStr x, VStr y => String.eqb x y
  | VObj i _, VObj j _ => Nat.eqb i j
  | _, _ => false
  end.

(** [Object.values]: the property values of an object, the characters of a
    string, nothing for the other primitives. *)
Definition Object_values (v : value) : list value :=
  match v with
  | VObj _ fields => (map_to_list fields).*2
  | VStr s => (fun c => VStr (String c EmptyString)) <$> list_ascii_of_string s
  | _ => []
  end.

(** [xs.some(f)]. *)
Definition some {A} (f : A -> bool) (xs : list A) : bool := existsb f xs.

(** What a rejected promise carries: an HTTP error with the response status
    when there was a response, or any other error. *)
Inductive exn : Type :=
  | HttpError (status : option Z)
  | OtherError (message : string).

(** [error.status] *)
Definition status (e : exn) : option Z :=
  match e with
  | HttpError s => s
  | OtherError _ => None
  end.

(** [x === n] and [x !== n] for [x : number | undefined]. *)
Definition strict_eq (x : option Z) (n : Z) : bool :=
  match x with
  | Some m => m =? n
  | None => false
  end.

Definition strict_ne (x : option Z) (n : Z) : bool := negb (strict_eq x n).

(** A settled promise. *)
Inductive promise (A : Type) : Type :=
  | Resolved (a : A)
  | Rejected (e : exn).
Arguments Resolved {A} a.
Arguments Rejected {A} e.

(** [await p] followed by the rest of an async function: a rejection of
    [p] is the rejection of the whole function. *)
Definition await {A B} (p : promise A) (k : A -> promise B) : promise B :=
  match p with
  | Resolved a => k a
  | Rejected e => Rejected e
  end.

#[export] Instance promise_ret : MRet promise := @Resolved.
#[export] Instance promise_bind : MBind promise := fun A B k p => await p k.

End JS.

Notation "o .[ k ]" := (JS.prop o k) (at level 1, left associativity, format "o .[ k ]").

(* ===================================================================== *)
(** ** types/settings.ts *)
(* ===================================================================== *)

Module SettingsTypes.
Import JS.

(** The type expressions the declarations use. *)
Inductive ty : Type :=
  | TString
  | TNumber
  | TBoolean
  | TNull
  | TUnion (a b : ty)
  | TRecord (elt : ty).

(** An object type: its fields in declaration order. *)
Abbreviation object_type := (list (string * ty)).

Definition Settings : object_type :=
  [ ("LLM_MODEL", TString);
    ("LLM_BASE_URL", TString);
    ("AGENT", TString);
    ("LANGUAGE", TString);
    ("LLM_API_KEY", TUnion TString TNull);
    ("CONFIRMATION_MODE", TBoolean);
    ("SECURITY_ANALYZER", TString);
    ("REMOTE_RUNTIME_RESOURCE_FACTOR", TUnion TNumber TNull);
    ("GITHUB_TOKEN_IS_SET", TBoolean);
    ("ENABLE_DEFAULT_CONDENSER", TBoolean);
    ("ENABLE_SOUND_NOTIFICATIONS", TBoolean);
    ("USER_CONSENTS_TO_ANALYTICS", TUnion TBoolean TNull);
    ("PROVIDER_TOKENS", TRecord TString) ].

Definition ApiSettings : object_type :=
  [ ("llm_model", TString);
    ("llm_base_url", TString);
    ("agent", TString);
    ("language", TString);
    ("llm_api_key", TUnion TString TNull);
    ("confirmation_mode", TBoolean);
    ("security_analyzer", TString);
    ("remote_runtime_resource_factor", TUnion TNumber TNull);
    ("github_token_is_set", TBoolean);
    ("enable_default_condenser", TBoolean);
    ("enable_sound_notifications", TBoolean);
    ("user_consents_to_analytics", TUnion TBoolean TNull);
    ("provider_tokens", TRecord TString) ].

(** [A & { ... }] *)
Definition intersect (a b : object_type) : object_type := a ++ b.

Definition PostSettings : object_type :=
  intersect Settings
    [ ("provider_tokens", TRecord TString);
      ("unset_github_token", TBoolean);
      ("user_consents_to_analytics", TUnion TBoolean TNull) ].

Definition PostApiSettings : object_type :=
  intersect ApiSettings
    [ ("provider_tokens", TRecord TString);
      ("unset_github_token", TBoolean);
      ("user_consents_to_analytics", TUnion TBoolean TNull) ].

(** A value inhabits a type. *)
Fixpoint has_type (v : value) (t : ty) {struct t} : bool :=
  match t with
  | TString => match v with VStr _ => true | _ => false end
  | TNumber => match v with VNum _ => true | _ => false end
  | TBoolean => match v with VBool _ => true | _ => false end
  | TNull => match v with VNull => true | _ => false end
  | TUnion a b => has_type v a || has_type v b
  | TRecord elt =>
      match v with
      | VObj _ fields => forallb (fun kv => has_type kv.2 elt) (map_to_list fields)
      | _ => false
      end
  end.

(** An object is a valid payload of an object type: every declared field is
    there, with a value of the declared type (further properties are
    allowed, as TypeScript's structural typing has it). *)
Definition conforms (o : obj) (t : object_type) : bool :=
  forallb (fun d => match o !! d.1 with
                    | Some v => has_type v d.2
                    | None => false
                    end) t.

Definition field_names (t : object_type) : list string := t.*1.

(** The naming convention: the client shape spells a wire name in upper
    case. *)
Definition upper_ascii (c : ascii) : ascii :=
  let n := nat_of_ascii c in
  if (Nat.leb 97 n && Nat.leb n 122)%bool then ascii_of_nat (n - 32) else c.

Fixpoint client_name (wire : string) : string :=
  match wire with
  | EmptyString => EmptyString
  | String c rest => String (upper_ascii c) (client_name rest)
  end.

End SettingsTypes.

(* ===================================================================== *)
(** ** hooks/query/use-settings.ts *)
(* ===================================================================== *)

Module UseSettings.
Import JS.

(** [getSettingsQueryFn], given what [OpenHands.getSettings()] settles to. *)
Definition getSettingsQueryFn (getSettings : promise obj) : promise obj :=
  apiSettings ← getSettings;
  mret (list_to_map
    [ ("LLM_MODEL", apiSettings.["llm_model"]);
      ("LLM_BASE_URL", apiSettings.["llm_base_url"]);
      ("AGENT", apiSettings.["agent"]);
      ("LANGUAGE", apiSettings.["language"]);
      ("CONFIRMATION_MODE", apiSettings.["confirmation_mode"]);
      ("SECURITY_ANALYZER", apiSettings.["security_analyzer"]);
      ("LLM_API_KEY", apiSettings.["llm_api_key"]);
      ("REMOTE_RUNTIME_RESOURCE_FACTOR", apiSettings.["remote_runtime_resource_factor"]);
      ("PROVIDER_TOKENS_SET", apiSettings.["provider_tokens_set"]);
      ("ENABLE_DEFAULT_CONDENSER", apiSettings.["enable_default_condenser"]);
      ("ENABLE_SOUND_NOTIFICATIONS", apiSettings.["enable_sound_notifications"]);
      ("USER_CONSENTS_TO_ANALYTICS", apiSettings.["user_consents_to_analytics"]) ]).

(** The adapter's mapping read off the object literal above: the client key
    and the wire property it is filled from, line by line. *)
Definition adapter_mapping : list (string * string) :=
  [ ("LLM_MODEL", "llm_model");
    ("LLM_BASE_URL", "llm_base_url");
    ("AGENT", "agent");
    ("LANGUAGE", "language");
    ("CONFIRMATION_MODE", "confirmation_mode");
    ("SECURITY_ANALYZER", "security_analyzer");
    ("LLM_API_KEY", "llm_api_key");
    ("REMOTE_RUNTIME_RESOURCE_FACTOR", "remote_runtime_resource_factor");
    ("PROVIDER_TOKENS_SET", "provider_tokens_set");
    ("ENABLE_DEFAULT_CONDENSER", "enable_default_condenser");
    ("ENABLE_SOUND_NOTIFICATIONS", "enable_sound_notifications");
    ("USER_CONSENTS_TO_ANALYTICS", "user_consents_to_analytics") ].

(** What [useQuery] hands back, as far as the hook looks at it; the fields
    it does not look at travel along inside [...query] and are left out. *)
Record UseQueryResult : Type := {
  data : option obj;
  error : option exn;
  isFetched : bool
}.

(** The options the hook passes to [useQuery]. *)
Record QueryOptions : Type := {
  queryKey : list value;
  queryFn : promise obj -> promise obj;
  retry : nat -> exn -> bool;
  disableToast : bool
}.

(** The part of the auth context the hook uses. *)
Record AuthContext : Type := {
  providerTokensSet : value;
  providersAreSet : bool
}.

(** What the hook does to the world outside. *)
Inductive effect : Type :=
  | posthog_capture (event : string)
  | setProviderTokensSet (v : value)
  | setProvidersAreSet (b : bool).

(** The dependency arrays of the two effects as of the previous render;
    [None] before the first render. *)
Record Hook : Type := {
  apiKeyDeps : option value;
  tokensDeps : option (value * bool)
}.

Definition unmounted : Hook := {| apiKeyDeps := None; tokensDeps := None |}.

(** [React.useEffect(body, deps)]: the body runs after the first render and
    after every render whose dependencies differ from the previous ones. *)
Definition scheduled {D} (same : D -> D -> bool) (prev : option D) (deps : D) : bool :=
  match prev with
  | None => true
  | Some p => negb (same p deps)
  end.

Definition useEffect {D} (same : D -> D -> bool) (body : list effect)
    (prev : option D) (deps : D) : list effect :=
  if scheduled same prev deps then body else [].

Definition same_tokens_deps (a b : value * bool) : bool :=
  object_is a.1 b.1 && Bool.eqb a.2 b.2.

(** [query.data?.k] *)
Definition data_prop (query : UseQueryResult) (k : string) : value :=
  match data query with
  | Some d => d.[k]
  | None => VUndefined
  end.

(** [query.error?.status] *)
Definition error_status (query : UseQueryResult) : option Z :=
  match error query with
  | Some e => status e
  | None => None
  end.

(** [{ ...query, data: d }] *)
Definition with_data (query : UseQueryResult) (d : obj) : UseQueryResult :=
  {| data := Some d; error := error query; isFetched := isFetched query |}.

Definition analytics_effect (query : UseQueryResult) : list effect :=
  if truthy (data_prop query "LLM_API_KEY")
  then [posthog_capture "user_activated"]
  else [].

Definition tokens_effect (query : UseQueryResult) : list effect :=
  if truthy (data_prop query "PROVIDER_TOKENS_SET")
  then
    let atLeastOneSet :=
      some (fun value => truthy value)
           (Object_values (data_prop query "PROVIDER_TOKENS_SET")) in
    [ setProviderTokensSet (data_prop query "PROVIDER_TOKENS_SET");
      setProvidersAreSet atLeastOneSet ]
  else [].

(** The options [useSettings] hands to [useQuery]; [providerTokensSet] is
    the one of the auth context. *)
Definition query_options (providerTokensSet : value) : QueryOptions :=
  {| queryKey := [VStr "settings"; providerTokensSet];
     queryFn := getSettingsQueryFn;
     retry := fun _ error => strict_ne (status error) 404;
     disableToast := true |}.

Section hook.

(** [DEFAULT_SETTINGS] of [#/services/settings]. *)
Variable DEFAULT_SETTINGS : obj.

(** [useQuery] of the query library: what it returns in this render. *)
Variable useQuery : QueryOptions -> UseQueryResult.

(** One render of [useSettings]: the value it returns, the dependency
    arrays React keeps for the next render, and the effects that run once
    the render is committed, in order. *)
Definition useSettings (auth : AuthContext) (hook : Hook)
    : UseQueryResult * Hook * list effect :=
  let query := useQuery (query_options (providerTokensSet auth)) in
  let fx1 :=
    useEffect object_is (analytics_effect query)
      (apiKeyDeps hook) (data_prop query "LLM_API_KEY") in
  let fx2 :=
    useEffect same_tokens_deps (tokens_effect query)
      (tokensDeps hook) (data_prop query "PROVIDER_TOKENS_SET", isFetched query) in
  let hook' :=
    {| apiKeyDeps := Some (data_prop query "LLM_API_KEY");
       tokensDeps := Some (data_prop query "PROVIDER_TOKENS_SET", isFetched query) |} in
  if strict_eq (error_status query) 404
  then (with_data query DEFAULT_SETTINGS, hook', fx1 ++ fx2)
  else (query, hook', fx1 ++ fx2).

End hook.

(** The setters of the auth context, and the session after a list of
    effects ([posthog.capture] leaves the auth context alone). *)
Definition run_effect (auth : AuthContext) (e : effect) : AuthContext :=
  match e with
  | posthog_capture _ => auth
  | setProviderTokensSet v =>
      {| providerTokensSet := v; providersAreSet := providersAreSet auth |}
  | setProvidersAreSet b =>
      {| providerTokensSet := providerTokensSet auth; providersAreSet := b |}
  end.

Definition commit (auth : AuthContext) (fx : list effect) : AuthContext :=
  fold_left run_effect fx auth.

(** The life of one mounted hook: a render per entry of [queries] (what
    [useQuery] answers in that render), each committed before the next. *)
Fixpoint renders (DEFAULT_SETTINGS : obj)
    (queries : list (QueryOptions -> UseQueryResult))
    (auth : AuthContext) (hook : Hook) : AuthContext * Hook * list effect :=
  match queries with
  | [] => (auth, hook, [])
  | useQuery :: rest =>
      let '(_, hook', fx) := useSettings DEFAULT_SETTINGS useQuery auth hook in
      let '(auth'', hook'', fx') :=
        renders DEFAULT_SETTINGS rest (commit auth fx) hook' in
      (auth'', hook'', fx ++ fx')
  end.

End UseSettings.

(* ===================================================================== *)
(** ** api/github.ts *)
(* ===================================================================== *)

Module GitHub.
Import JS.

(** Modelled from the spec: the type [GitHubRepository] is declared outside
    these files; a repository record is opaque beyond carrying an optional
    legacy [link_header] string. *)
Record GitHubRepository : Type := {
  repository : obj;
  link_header : option string
}.

(** A request of the HTTP client: the path and the [params] object, entry
    by entry ([undefined] entries included, as the code writes them). *)
Record Request : Type := {
  url : string;
  params : list (string * value)
}.

(** [xs[i]] on an array: [undefined] outside of it. *)
Definition at_index {A} (xs : list A) (i : Z) : option A :=
  if i <? 0 then None else xs !! Z.to_nat i.

(** A [number | undefined] as a value. *)
Definition num_or_undefined (n : option Z) : value :=
  match n with
  | Some n => VNum n
  | None => VUndefined
  end.

(** *** Repositories of the app installations *)
Module App.

Record Result : Type := {
  data : list GitHubRepository;
  nextPage : option Z;
  installationIndex : option Z
}.

(** [data.length > 0 && data[0].link_header ? data[0].link_header : ""] *)
Definition link_of (data : list GitHubRepository) : string :=
  match data with
  | first :: _ =>
      if truthy_str (link_header first)
      then default "" (link_header first)
      else ""
  | [] => ""
  end.

Section client.

(** [extractNextPageFromLink] of [#/utils/extract-next-page-from-link]. *)
Variable extractNextPageFromLink : string -> option Z.

(** [openHands.get<GitHubRepository[]>]: what the request settles to
    (the body of the response, or the rejection). *)
Variable openHands_get : Request -> promise (list GitHubRepository).

(** The function returns the requests it issued, in order, next to the
    promise it returns.  [page] and [per_page] are [None] when the caller
    leaves them out. *)
Definition retrieveGitHubAppRepositories
    (installationIndex : Z) (installations : list Z)
    (page per_page : option Z) : list Request * promise Result :=
  let page := default 1 page in
  let per_page := default 30 per_page in
  let installationId := at_index installations installationIndex in
  let request :=
    {| url := "/api/user/repositories";
       params := [ ("sort", VStr "pushed");
                   ("page", VNum page);
                   ("per_page", VNum per_page);
                   ("installation_id", num_or_undefined installationId) ] |} in
  ([request],
   response ← openHands_get request;
   let link := link_of response in
   let nextPage := extractNextPageFromLink link in
   let nextInstallation :=
     if truthy_num nextPage then Some installationIndex
     else if installationIndex + 1 <? Z.of_nat (length installations)
          then Some (installationIndex + 1)
          else None in
   mret {| data := response;
           nextPage := nextPage;
           installationIndex := nextInstallation |}).

End client.
End App.

(** *** Repositories of the user *)
Module User.

Record Pagination : Type := {
  total_count : Z;
  has_more : bool;
  (** [None]: the block has no [provider_cursors] (the code reads it
      through [?.]) *)
  provider_cursors : option (gmap string string)
}.

Record Response : Type := {
  repositories : list GitHubRepository;
  pagination : Pagination
}.

Record Result : Type := {
  data : list GitHubRepository;
  nextPage : option Z;
  totalCount : Z;
  providerCursors : option (gmap string string)
}.

(** [pagination.provider_cursors?.github] *)
Definition github_cursor (p : Pagination) : option string :=
  cursors ← provider_cursors p; cursors !! "github".

Section client.

Variable extractNextPageFromLink : string -> option Z.

(** [openHands.get<{ repositories, pagination }>] *)
Variable openHands_get : Request -> promise Response.

Definition retrieveGitHubUserRepositories
    (page per_page : option Z) : list Request * promise Result :=
  let page := default 1 page in
  let per_page := default 30 per_page in
  let request :=
    {| url := "/api/user/repositories";
       params := [ ("sort", VStr "pushed");
                   ("page", VNum page);
                   ("per_page", VNum per_page) ] |} in
  ([request],
   response ← openHands_get request;
   let hasMore := has_more (pagination response) in
   let githubCursor := github_cursor (pagination response) in
   let nextPage :=
     if truthy_str githubCursor
     then extractNextPageFromLink (default "" githubCursor)
     else if hasMore then Some (page + 1) else None in
   mret {| data := repositories response;
           nextPage := nextPage;
           totalCount := total_count (pagination response);
           providerCursors := provider_cursors (pagination response) |}).

End client.
End User.

End GitHub.

(* ===================================================================== *)
(** ** Vocabulary of the statements *)
(* ===================================================================== *)

Module Shape.
Import JS SettingsTypes.

(** [settings] carries the wire fields [fields] of [apiSettings] under their
    client names, values untouched. *)
Definition straight_rename (fields : list string) (apiSettings settings : obj) : Prop :=
  Forall (fun f => settings !! client_name f = apiSettings !! f) fields.

(** The two wire fields the adapter does not read. *)
Definition unread : list string := ["github_token_is_set"; "provider_tokens"].

(** The wire fields the adapter reads out of [ApiSettings]. *)
Definition read_fields : list string :=
  list_difference (field_names ApiSettings) unread.

(** The analytics signal of the hook, and the signals among a list of
    effects. *)
Definition user_activated : UseSettings.effect :=
  UseSettings.posthog_capture "user_activated".

Definition is_capture (e : UseSettings.effect) : bool :=
  match e with
  | UseSettings.posthog_capture _ => true
  | _ => false
  end.

Definition signals (fx : list UseSettings.effect) : list UseSettings.effect :=
  List.filter is_capture fx.

(** The derived boolean of the hook: some value of the map is truthy. *)
Definition at_least_one_set (tokens_set : value) : bool :=
  some truthy (Object_values tokens_set).

(** The advance policy of the installation-scoped listing: stay on the
    installation while it has a next page, else move to the next
    installation if there is one, else stop. *)
Definition advance (nextPage : option Z) (installationIndex : Z)
    (installations : list Z) : option Z :=
  if truthy_num nextPage then Some installationIndex
  else if installationIndex + 1 <? Z.of_nat (length installations)
       then Some (installationIndex + 1)
       else None.

(** The fallback of the user listing when no github cursor is used. *)
Definition has_more_rule (has_more : bool) (page : Z) : option Z :=
  if has_more then Some (page + 1) else None.

End Shape.

(* ===================================================================== *)
(** ** Concrete inputs *)
(* ===================================================================== *)

Module Samples.
Import JS.

(** Which providers have a token: github has, gitlab has not. *)
Definition tokens_set : value :=
  VObj 2 (<[ "github" := VBool true ]> {[ "gitlab" := VBool false ]}).

(** A settings payload as the server sends it: the fields of [ApiSettings]
    and the [provider_tokens_set] map. *)
Definition payload : obj :=
  list_to_map
    [ ("llm_model", VStr "gpt-4");
      ("llm_base_url", VStr "");
      ("agent", VStr "CodeActAgent");
      ("language", VStr "en");
      ("llm_api_key", VStr "sk-1");
      ("confirmation_mode", VBool false);
      ("security_analyzer", VStr "");
      ("remote_runtime_resource_factor", VNum 1);
      ("github_token_is_set", VBool true);
      ("enable_default_condenser", VBool true);
      ("enable_sound_notifications", VBool false);
      ("user_consents_to_analytics", VNull);
      ("provider_tokens", VObj 1 {[ "github" := VStr "ghp_1" ]});
      ("provider_tokens_set", tokens_set) ].

(** The settings the adapter makes of [payload]. *)
Definition settings : obj :=
  match UseSettings.getSettingsQueryFn (Resolved payload) with
  | Resolved s => s
  | Rejected _ => ∅
  end.

(** A stand-in for [DEFAULT_SETTINGS]. *)
Definition default_settings : obj :=
  list_to_map
    [ ("LLM_MODEL", VStr "default-model");
      ("LANGUAGE", VStr "en");
      ("LLM_API_KEY", VNull) ].

(** Query results: before the first fetch settles, after it succeeded and
    after it failed with 404. *)
Definition pending : UseSettings.UseQueryResult :=
  {| UseSettings.data := None;
     UseSettings.error := None;
     UseSettings.isFetched := false |}.

Definition fetched : UseSettings.UseQueryResult :=
  {| UseSettings.data := Some settings;
     UseSettings.error := None;
     UseSettings.isFetched := true |}.

Definition not_found : UseSettings.UseQueryResult :=
  {| UseSettings.data := None;
     UseSettings.error := Some (HttpError (Some 404));
     UseSettings.isFetched := true |}.

(** The dependency arrays a render of [pending] leaves behind. *)
Definition after_pending : UseSettings.Hook :=
  {| UseSettings.apiKeyDeps := Some VUndefined;
     UseSettings.tokensDeps := Some (VUndefined, false) |}.

(** The first render shows the pending query, the second the fetched one. *)
Definition first_fetch : list (UseSettings.QueryOptions -> UseSettings.UseQueryResult) :=
  [fun _ => pending; fun _ => fetched].

Definition signed_out : UseSettings.AuthContext :=
  {| UseSettings.providerTokensSet := VObj 0 ∅;
     UseSettings.providersAreSet := false |}.

(** Link headers as GitHub writes them, [<url>; rel="next"]. *)
Definition quoted (s : string) : string :=
  String (ascii_of_nat 34) (s ++ String (ascii_of_nat 34) EmptyString)%string.

Definition link_header_to (page : string) (rel : string) : string :=
  ("<https://api.github.com/installation/repositories?page=" ++ page
   ++ ">; rel=" ++ quoted rel)%string.

Definition link_to_page_2 : string := link_header_to "2" "next".
Definition link_to_page_0 : string := link_header_to "0" "next".
Definition link_without_next : string := link_header_to "1" "prev".

(** A stand-in for [extractNextPageFromLink], whose parsing rules are
    outside of these files: the page a table gives for the link, [null] for
    every other string. *)
Definition extract_from (table : list (string * Z)) (link : string) : option Z :=
  (list_to_map table : gmap string Z) !! link.

Definition extract : string -> option Z :=
  extract_from [ (link_to_page_2, 2); (link_to_page_0, 0) ].

Definition repo (name : string) (link : option string) : GitHub.GitHubRepository :=
  {| GitHub.repository := {[ "full_name" := VStr name ]};
     GitHub.link_header := link |}.

(** The server answers every request with the same body. *)
Definition answers {A} (body : A) : GitHub.Request -> promise A :=
  fun _ => Resolved body.

(** One page of an installation's repositories whose first record carries
    [link], and a page without any link header. *)
Definition app_page (link : string) : list GitHub.GitHubRepository :=
  [repo "octo/a" (Some link); repo "octo/b" None].

Definition app_last_page : list GitHub.GitHubRepository :=
  [repo "octo/a" None; repo "octo/b" None].

Definition user_page (has_more : bool) (cursors : option (gmap string string))
    : GitHub.User.Response :=
  {| GitHub.User.repositories :=
       [repo "octo/a" None; repo "octo/b" None; repo "octo/c" None];
     GitHub.User.pagination :=
       {| GitHub.User.total_count := 50;
          GitHub.User.has_more := has_more;
          GitHub.User.provider_cursors := cursors |} |}.

End Samples.

(* ===================================================================== *)
(** ** The query library's retry loop *)
(* ===================================================================== *)

Module QueryLibrary.
Import JS UseSettings.

(** The query as [useQuery] shows it while its first fetch is under way:
    no data, no error, not fetched. *)
Definition fetching : UseQueryResult :=
  {| data := None; error := None; isFetched := false |}.

(** The first fetch of a query as the query library runs it with the
    [queryFn] and the [retry] function of [options].  [attempts] holds what
    the calls of [OpenHands.getSettings()] made so far have settled to, in
    order; [failureCount] counts the attempts that failed before them.  An
    attempt that resolves settles the query with its data.  After an
    attempt that is rejected the library calls [retry failureCount error]:
    on [false] the query settles in the error state with that error; on
    [true] the error is only kept as the reason of the failure and another
    attempt follows, the query showing neither data nor error until that
    one settles. *)
Fixpoint run_fetch (options : QueryOptions) (attempts : list (promise obj))
    (failureCount : nat) : UseQueryResult :=
  match attempts with
  | [] => fetching
  | getSettings :: later =>
      match queryFn options getSettings with
      | Resolved settings =>
          {| data := Some settings; error := None; isFetched := true |}
      | Rejected e =>
          if retry options failureCount e
          then run_fetch options later (S failureCount)
          else {| data := None; error := Some e; isFetched := true |}
      end
  end.

(** [useQuery] in a render that takes place after [attempts]. *)
Definition useQuery (attempts : list (promise obj))
    : QueryOptions -> UseQueryResult :=
  fun options => run_fetch options attempts 0.



End QueryLibrary.

(* ===================================================================== *)
(** ** The variance types *)
(* ===================================================================== *)

Module Variance.
Import SettingsTypes.

(** The [args] member of [InitConfig], the settings a client sends when it
    initialises a session. *)
Definition InitConfig_args : object_type :=
  [ ("AGENT", TString);
    ("CONFIRMATION_MODE", TBoolean);
    ("LANGUAGE", TString);
    ("LLM_API_KEY", TString);
    ("LLM_MODEL", TString) ].

End Variance.

(* ===================================================================== *)
(** ** Further vocabulary and inputs *)
(* ===================================================================== *)

Module Cover.
Import JS SettingsTypes UseSettings Shape.

(** The wire properties the adapter reads. *)
Definition wire_reads : list string := adapter_mapping.*2.

(** The part of [ApiSettings] the adapter reads, and the part of [Settings]
    it fills from it. *)
Definition ApiSettings_read : object_type :=
  filter (fun d => d.1 ∉ unread) ApiSettings.

Definition Settings_filled : object_type :=
  prod_map client_name id <$> ApiSettings_read.

(** What [PostSettings] and [PostApiSettings] add to their base shape. *)
Definition Post_extension : object_type :=
  [ ("provider_tokens", TRecord TString);
    ("unset_github_token", TBoolean);
    ("user_consents_to_analytics", TUnion TBoolean TNull) ].

(** The session's boolean is the one derived from the session's map. *)
Definition consistent (auth : AuthContext) : Prop :=
  providersAreSet auth = at_least_one_set (providerTokensSet auth).

(** The three values a render hands to React as dependencies. *)
Definition api_key (query : UseQueryResult) : value :=
  data_prop query "LLM_API_KEY".

Definition tokens_map (query : UseQueryResult) : value :=
  data_prop query "PROVIDER_TOKENS_SET".

(** Default settings that carry an API key and a provider map of their
    own. *)
Definition keyed_defaults : obj :=
  list_to_map
    [ ("LLM_MODEL", VStr "default-model");
      ("LLM_API_KEY", VStr "sk-default");
      ("PROVIDER_TOKENS_SET", VObj 7 {[ "github" := VBool true ]}) ].

(** A query that failed with 404 while the cache still holds the settings
    of an earlier fetch. *)
Definition stale_not_found : UseQueryResult :=
  {| data := Some Samples.settings;
     error := Some (HttpError (Some 404));
     isFetched := true |}.

(** A refetch that produced a new settings object around the same key and
    the same map. *)
Definition refetched : UseQueryResult :=
  {| data := Some (<[ "LANGUAGE" := VStr "fr" ]> Samples.settings);
     error := None;
     isFetched := true |}.

(** A fetched query whose settings carry no provider map. *)
Definition fetched_without_map : UseQueryResult :=
  {| data := Some (delete "PROVIDER_TOKENS_SET" Samples.settings);
     error := None;
     isFetched := true |}.

(** A session that already holds a map. *)
Definition signed_in : AuthContext :=
  {| providerTokensSet := VObj 5 {[ "gitlab" := VBool true ]};
     providersAreSet := true |}.

(** A first page of the user listing, and a page that is empty although
    [has_more] is set and that carries a cursor of another provider. *)
Definition first_user_page : GitHub.User.Response :=
  Samples.user_page true (Some (∅ : gmap string string)).

Definition empty_page_with_more : GitHub.User.Response :=
  {| GitHub.User.repositories := [];
     GitHub.User.pagination :=
       {| GitHub.User.total_count := 0;
          GitHub.User.has_more := true;
          GitHub.User.provider_cursors :=
            Some {[ "gitlab" := Samples.link_to_page_2 ]} |} |}.

(** A page whose later record carries a link header of its own. *)
Definition app_page_with_later_link : list GitHub.GitHubRepository :=
  [ Samples.repo "octo/z" (Some Samples.link_to_page_2);
    Samples.repo "octo/y" (Some Samples.link_without_next) ].

(** The server rejects every request. *)
Definition fails {A} (e : exn) : GitHub.Request -> promise A :=
  fun _ => Rejected e.

End Cover.

(* ===================================================================== *)
(** ** The settings types and the adapter's mapping *)
(* ===================================================================== *)

Module SettingsFacts.
Import JS SettingsTypes UseSettings Shape.

Lemma getSettingsQueryFn_rejected e :
  getSettingsQueryFn (Rejected e) = Rejected e.
Proof. reflexivity. Qed.

(** The object literal is the mapping table applied to the payload. *)
Lemma getSettingsQueryFn_resolved apiSettings :
  getSettingsQueryFn (Resolved apiSettings)
  = Resolved (prop apiSettings <$> (list_to_map adapter_mapping : gmap string string)).
Proof.
  unfold getSettingsQueryFn. cbn [mbind promise_bind await mret promise_ret].
  rewrite <- list_to_map_fmap. reflexivity.
Qed.

Lemma adapter_mapping_NoDup : NoDup adapter_mapping.*1.
Proof. compute_done. Qed.

Lemma adapter_mapping_lookup K k :
  (list_to_map adapter_mapping : gmap string string) !! K = Some k
  <-> (K, k) ∈ adapter_mapping.
Proof. symmetry. apply elem_of_list_to_map, adapter_mapping_NoDup. Qed.

Lemma conforms_lookup o t f :
  conforms o t = true -> f ∈ field_names t ->
  exists v, o !! f = Some v.
Proof.
  unfold conforms, field_names. intros H Hf.
  apply list_elem_of_fmap in Hf as [[f' tf] [-> Hin]].
  rewrite forallb_forall in H. apply list_elem_of_In in Hin.
  specialize (H _ Hin). cbn in H |- *.
  destruct (o !! f') as [v|]; [by exists v | discriminate].
Qed.

Lemma read_fields_eq :
  read_fields
  = [ "llm_model"; "llm_base_url"; "agent"; "language"; "llm_api_key";
      "confirmation_mode"; "security_analyzer"; "remote_runtime_resource_factor";
      "enable_default_condenser"; "enable_sound_notifications";
      "user_consents_to_analytics" ].
Proof. reflexivity. Qed.

Lemma client_name_llm_model : client_name "llm_model" = "LLM_MODEL".
Proof. reflexivity. Qed.

Lemma read_fields_mapped :
  Forall (fun f => (client_name f, f) ∈ adapter_mapping)
         read_fields.
Proof.
  apply Forall_forall. intros f Hf. apply adapter_mapping_lookup. revert f Hf.
  apply Forall_forall. compute_done.
Qed.

Lemma read_fields_result apiSettings f :
  f ∈ read_fields ->
  (prop apiSettings <$> (list_to_map adapter_mapping : gmap string string))
    !! client_name f = Some apiSettings.[f].
Proof.
  intros Hf. rewrite lookup_fmap.
  pose proof read_fields_mapped as Hm. rewrite Forall_forall in Hm.
  apply Hm, adapter_mapping_lookup in Hf. by rewrite Hf.
Qed.

Lemma result_keys apiSettings :
  dom (prop apiSettings <$> (list_to_map adapter_mapping : gmap string string))
  = list_to_set (client_name <$> read_fields) ∪ {[ "PROVIDER_TOKENS_SET" ]}.
Proof. rewrite dom_fmap_L, dom_list_to_map_L. compute_done. Qed.

(** C1 (as amended): for every valid [ApiSettings] payload the adapter
    resolves to an object that carries every [ApiSettings] field other than
    [github_token_is_set] and [provider_tokens] under its client name with
    the value unchanged, carries the payload's [provider_tokens_set] as
    [PROVIDER_TOKENS_SET], and has no other entry. *)
Theorem getSettingsQueryFn_straight_rename apiSettings :
  conforms apiSettings ApiSettings = true ->
  exists settings,
    getSettingsQueryFn (Resolved apiSettings) = Resolved settings
    /\ straight_rename read_fields apiSettings settings
    /\ settings !! "PROVIDER_TOKENS_SET" = Some apiSettings.["provider_tokens_set"]
    /\ dom settings
       = list_to_set (client_name <$> read_fields) ∪ {[ "PROVIDER_TOKENS_SET" ]}.
Proof.
  intros Hvalid. eexists. split; [apply getSettingsQueryFn_resolved |].
  split; [| split].
  - apply Forall_forall. intros f Hf.
    rewrite read_fields_result by exact Hf.
    assert (Hdecl : f ∈ field_names ApiSettings).
    { unfold read_fields in Hf. apply list_elem_of_difference in Hf. tauto. }
    destruct (conforms_lookup _ _ _ Hvalid Hdecl) as [v Hv].
    unfold prop. by rewrite Hv.
  - rewrite lookup_fmap. reflexivity.
  - apply result_keys.
Qed.

Lemma getSettingsQueryFn_straight_rename_witness :
  conforms Samples.payload ApiSettings = true
  /\ exists settings,
       getSettingsQueryFn (Resolved Samples.payload) = Resolved settings
       /\ straight_rename read_fields Samples.payload settings
       /\ settings !! "PROVIDER_TOKENS_SET"
          = Some Samples.payload.["provider_tokens_set"]
       /\ dom settings
          = list_to_set (client_name <$> read_fields) ∪ {[ "PROVIDER_TOKENS_SET" ]}.
Proof.
  split; [vm_compute; reflexivity |].
  apply (getSettingsQueryFn_straight_rename Samples.payload).
  vm_compute; reflexivity.
Defined.

(** C1 (as stated) fails: on a valid payload the field
    [github_token_is_set] of [ApiSettings] does not reach the result. *)
Lemma getSettingsQueryFn_drops_github_token_is_set :
  conforms Samples.payload ApiSettings = true
  /\ ("github_token_is_set" ∈ field_names ApiSettings)
  /\ exists settings,
       getSettingsQueryFn (Resolved Samples.payload) = Resolved settings
       /\ Samples.payload !! "github_token_is_set" = Some (VBool true)
       /\ settings !! client_name "github_token_is_set" = None
       /\ ~ straight_rename (field_names ApiSettings) Samples.payload settings.
Proof.
  split; [vm_compute; reflexivity |]. split; [compute_done |].
  eexists. split; [apply getSettingsQueryFn_resolved |].
  assert (Hnone :
    (prop Samples.payload <$> (list_to_map adapter_mapping : gmap string string))
      !! client_name "github_token_is_set" = None).
  { rewrite lookup_fmap. reflexivity. }
  split; [reflexivity |]. split; [exact Hnone |].
  unfold straight_rename. rewrite Forall_forall. intros Hall.
  assert (Hin : "github_token_is_set" ∈ field_names ApiSettings) by compute_done.
  specialize (Hall _ Hin). rewrite Hnone in Hall. discriminate Hall.
Qed.

(** C7 (as amended): [Settings] and [ApiSettings] declare the same fields,
    in the same order and with the same value types, the client name being
    the wire name in upper case; no name is declared twice, so every field
    of either shape has exactly one counterpart in the other; and the
    adapter fills the client field from the wire field for every pair except
    [github_token_is_set] and [provider_tokens]. *)
Theorem settings_shapes_isomorphic :
  Settings = prod_map client_name id <$> ApiSettings
  /\ NoDup (field_names ApiSettings)
  /\ NoDup (field_names Settings)
  /\ (forall apiSettings f,
        f ∈ field_names ApiSettings -> f ∉ unread ->
        exists settings,
          getSettingsQueryFn (Resolved apiSettings) = Resolved settings
          /\ (client_name f ∈ field_names Settings)
          /\ settings !! client_name f = Some apiSettings.[f]).
Proof.
  split; [reflexivity |]. split; [compute_done |]. split; [compute_done |].
  intros apiSettings f Hf Hread. eexists.
  split; [apply getSettingsQueryFn_resolved |]. split.
  - clear Hread. revert f Hf. apply Forall_forall. compute_done.
  - apply read_fields_result. unfold read_fields.
    apply list_elem_of_difference. auto.
Qed.

Lemma settings_shapes_isomorphic_witness :
  ("llm_model" ∈ field_names ApiSettings) /\ ("llm_model" ∉ unread)
  /\ exists settings,
       getSettingsQueryFn (Resolved Samples.payload) = Resolved settings
       /\ (client_name "llm_model" ∈ field_names Settings)
       /\ settings !! client_name "llm_model" = Some (VStr "gpt-4").
Proof.
  assert (Hin : "llm_model" ∈ field_names ApiSettings) by compute_done.
  assert (Hread : "llm_model" ∉ unread) by compute_done.
  split; [exact Hin |]. split; [exact Hread |].
  exact (proj2 (proj2 (proj2 settings_shapes_isomorphic))
           Samples.payload "llm_model" Hin Hread).
Defined.

(** C7 (as stated) fails: [provider_tokens] / [PROVIDER_TOKENS] is declared
    by both shapes and has no counterpart in the adapter's mapping, while the
    mapping's [PROVIDER_TOKENS_SET] is declared by neither shape. *)
Lemma adapter_mapping_not_isomorphic :
  ("provider_tokens" ∈ field_names ApiSettings)
  /\ (client_name "provider_tokens" ∈ field_names Settings)
  /\ ("provider_tokens_set" ∉ field_names ApiSettings)
  /\ ("PROVIDER_TOKENS_SET" ∉ field_names Settings)
  /\ exists settings,
       getSettingsQueryFn (Resolved Samples.payload) = Resolved settings
       /\ is_Some (Samples.payload !! "provider_tokens")
       /\ settings !! client_name "provider_tokens" = None
       /\ is_Some (settings !! "PROVIDER_TOKENS_SET").
Proof.
  split; [compute_done |]. split; [compute_done |].
  split; [compute_done |]. split; [compute_done |].
  eexists. split; [apply getSettingsQueryFn_resolved |].
  split; [by eexists |].
  split; rewrite lookup_fmap; [reflexivity | by eexists].
Qed.

End SettingsFacts.

(* ===================================================================== *)
(** ** The [useSettings] hook: what it returns *)
(* ===================================================================== *)

Module HookFacts.
Import JS UseSettings.

Section render.

Variable DEFAULT_SETTINGS : obj.
Variable useQuery : QueryOptions -> UseQueryResult.
Variables (auth : AuthContext) (hook : Hook).

Let query := useQuery (query_options (providerTokensSet auth)).

Lemma useSettings_returned :
  (useSettings DEFAULT_SETTINGS useQuery auth hook).1.1
  = if strict_eq (error_status query) 404
    then with_data query DEFAULT_SETTINGS
    else query.
Proof.
  unfold useSettings. fold query.
  destruct (strict_eq (error_status query) 404); reflexivity.
Qed.

Lemma useSettings_hook :
  (useSettings DEFAULT_SETTINGS useQuery auth hook).1.2
  = {| apiKeyDeps := Some (data_prop query "LLM_API_KEY");
       tokensDeps := Some (data_prop query "PROVIDER_TOKENS_SET", isFetched query) |}.
Proof.
  unfold useSettings. fold query.
  destruct (strict_eq (error_status query) 404); reflexivity.
Qed.

Lemma useSettings_effects :
  (useSettings DEFAULT_SETTINGS useQuery auth hook).2
  = useEffect object_is (analytics_effect query)
      (apiKeyDeps hook) (data_prop query "LLM_API_KEY")
    ++ useEffect same_tokens_deps (tokens_effect query)
         (tokensDeps hook) (data_prop query "PROVIDER_TOKENS_SET", isFetched query).
Proof.
  unfold useSettings. fold query.
  destruct (strict_eq (error_status query) 404); reflexivity.
Qed.

End render.

Lemma strict_eq_iff x n : strict_eq x n = true <-> x = Some n.
Proof.
  destruct x as [m|]; cbn; [| by split].
  rewrite Z.eqb_eq. split; congruence.
Qed.

Lemma strict_ne_iff x n : strict_ne x n = true <-> x <> Some n.
Proof.
  unfold strict_ne. rewrite negb_true_iff, <- not_true_iff_false.
  by rewrite strict_eq_iff.
Qed.

(** What the hook returns after a 404: the query result with
    [DEFAULT_SETTINGS] as its data. *)
Lemma useSettings_not_found_spread DEFAULT_SETTINGS useQuery auth hook :
  let query := useQuery (query_options (providerTokensSet auth)) in
  error_status query = Some 404 ->
  (useSettings DEFAULT_SETTINGS useQuery auth hook).1.1
  = with_data query DEFAULT_SETTINGS.
Proof.
  intros query H404. rewrite useSettings_returned. fold query.
  apply strict_eq_iff in H404. by rewrite H404.
Qed.

(** C2 (as amended): a failure with status 404 is not retried and a
    failure with any other status (or with none) is; and when the query
    failed with status 404, the data of what the hook returns is
    [DEFAULT_SETTINGS]. *)
Theorem useSettings_not_found DEFAULT_SETTINGS useQuery auth hook :
  let options := query_options (providerTokensSet auth) in
  let query := useQuery options in
  let returned := (useSettings DEFAULT_SETTINGS useQuery auth hook).1.1 in
  (forall failureCount error,
      status error = Some 404 -> retry options failureCount error = false)
  /\ (forall failureCount error,
        status error <> Some 404 -> retry options failureCount error = true)
  /\ (error_status query = Some 404 -> data returned = Some DEFAULT_SETTINGS).
Proof.
  intros options query returned. split; [| split].
  - intros n e He. cbn. by rewrite He.
  - intros n e He. cbn. by apply strict_ne_iff.
  - intros H404. subst returned.
    by rewrite useSettings_not_found_spread.
Qed.

Lemma useSettings_not_found_witness :
  status (HttpError (Some 404)) = Some 404
  /\ status (HttpError (Some 500)) <> Some 404
  /\ error_status Samples.not_found = Some 404
  /\ retry (query_options (providerTokensSet Samples.signed_out)) 0
        (HttpError (Some 404)) = false
  /\ retry (query_options (providerTokensSet Samples.signed_out)) 0
        (HttpError (Some 500)) = true
  /\ data (useSettings Samples.default_settings (fun _ => Samples.not_found)
             Samples.signed_out unmounted).1.1
     = Some Samples.default_settings.
Proof.
  pose proof (useSettings_not_found Samples.default_settings
                (fun _ => Samples.not_found) Samples.signed_out unmounted)
    as (Hno & Hyes & Hdefault).
  assert (H404 : status (HttpError (Some 404)) = Some 404) by reflexivity.
  assert (H500 : status (HttpError (Some 500)) <> Some 404) by discriminate.
  assert (Herr : error_status Samples.not_found = Some 404) by reflexivity.
  split; [exact H404 |]. split; [exact H500 |]. split; [exact Herr |].
  split; [exact (Hno 0%nat _ H404) |]. split; [exact (Hyes 0%nat _ H500) |].
  exact (Hdefault Herr).
Defined.

(** C2 (as stated) fails: after a 404 the value the hook returns still
    carries the error. *)
Lemma useSettings_not_found_keeps_error :
  error_status Samples.not_found = Some 404
  /\ data (useSettings Samples.default_settings (fun _ => Samples.not_found)
             Samples.signed_out unmounted).1.1
     = Some Samples.default_settings
  /\ error (useSettings Samples.default_settings (fun _ => Samples.not_found)
              Samples.signed_out unmounted).1.1
     = Some (HttpError (Some 404)).
Proof. repeat split. Qed.







End HookFacts.

(* ===================================================================== *)
(** ** The [useSettings] hook: its effects *)
(* ===================================================================== *)

Module EffectFacts.
Import JS UseSettings Shape.

(** *** [Object.is] is an equivalence that respects truthiness *)

Lemma object_is_refl a : object_is a a = true.
Proof.
  destruct a as [| |b|n|s|i m]; cbn; try reflexivity.
  - by destruct b.
  - apply Z.eqb_refl.
  - apply String.eqb_refl.
  - apply Nat.eqb_refl.
Qed.

Lemma object_is_trans a b c :
  object_is a b = true -> object_is b c = true -> object_is a c = true.
Proof.
  destruct a, b, c; cbn; try discriminate; try reflexivity.
  - intros H1 H2. apply eqb_prop in H1, H2. subst. apply eqb_reflx.
  - rewrite !Z.eqb_eq. congruence.
  - rewrite !String.eqb_eq. congruence.
  - rewrite !Nat.eqb_eq. congruence.
Qed.

Lemma object_is_truthy a b : object_is a b = true -> truthy a = truthy b.
Proof.
  destruct a, b; cbn; try discriminate; try reflexivity.
  - intros H. by apply eqb_prop in H.
  - rewrite Z.eqb_eq. by intros ->.
  - rewrite String.eqb_eq. by intros ->.
Qed.

(** *** Committing the effects of a render *)

Lemma commit_app auth fx fx' : commit auth (fx ++ fx') = commit (commit auth fx) fx'.
Proof. apply fold_left_app. Qed.

Lemma commit_analytics auth query prev deps :
  commit auth (useEffect object_is (analytics_effect query) prev deps) = auth.
Proof.
  unfold useEffect, analytics_effect.
  destruct (scheduled _ _ _); [| reflexivity].
  destruct (truthy _); [| reflexivity]. by destruct auth.
Qed.

Lemma commit_tokens auth query :
  truthy (data_prop query "PROVIDER_TOKENS_SET") = true ->
  commit auth (tokens_effect query)
  = {| providerTokensSet := data_prop query "PROVIDER_TOKENS_SET";
       providersAreSet := at_least_one_set (data_prop query "PROVIDER_TOKENS_SET") |}.
Proof. intros H. unfold tokens_effect. rewrite H. reflexivity. Qed.

Lemma signals_app fx fx' : signals (fx ++ fx') = signals fx ++ signals fx'.
Proof. apply List.filter_app. Qed.

Lemma signals_tokens query prev deps :
  signals (useEffect same_tokens_deps (tokens_effect query) prev deps) = [].
Proof.
  unfold useEffect, tokens_effect.
  destruct (scheduled _ _ _); [| reflexivity].
  by destruct (truthy _).
Qed.

(** The logical OR over the values of a map. *)
Lemma at_least_one_set_map id (m : gmap string value) :
  at_least_one_set (VObj id m) = true
  <-> exists provider v, m !! provider = Some v /\ truthy v = true.
Proof.
  unfold at_least_one_set, some. cbn [Object_values]. rewrite existsb_exists. split.
  - intros (v & Hin & Hv). apply list_elem_of_In, list_elem_of_fmap in Hin.
    destruct Hin as ([k w] & -> & Hin). apply elem_of_map_to_list in Hin. eauto.
  - intros (k & v & Hk & Hv). exists v. split; [| exact Hv].
    apply list_elem_of_In, list_elem_of_fmap. exists (k, v).
    split; [reflexivity |]. by apply elem_of_map_to_list.
Qed.

(** *** Sequences of renders *)

Lemma renders_cons DEFAULT_SETTINGS useQuery rest auth hook :
  renders DEFAULT_SETTINGS (useQuery :: rest) auth hook
  = let r := useSettings DEFAULT_SETTINGS useQuery auth hook in
    let rr := renders DEFAULT_SETTINGS rest (commit auth r.2) r.1.2 in
    (rr.1.1, rr.1.2, r.2 ++ rr.2).
Proof.
  cbn [renders].
  destruct (useSettings DEFAULT_SETTINGS useQuery auth hook) as [[ret hook'] fx].
  cbn [fst snd].
  by destruct (renders DEFAULT_SETTINGS rest (commit auth fx) hook') as [[a h] f].
Qed.

(** The signal went out during the renders, unless the key has not changed
    since before them. *)
Lemma renders_signal DEFAULT_SETTINGS queries : forall auth hook key,
  let r := renders DEFAULT_SETTINGS queries auth hook in
  apiKeyDeps r.1.2 = Some key ->
  truthy key = true ->
  user_activated ∈ r.2
  \/ exists key0, apiKeyDeps hook = Some key0 /\ object_is key0 key = true.
Proof.
  induction queries as [| useQuery rest IH]; intros auth hook key.
  - cbn. intros Hk _. right. exists key. split; [exact Hk | apply object_is_refl].
  - rewrite renders_cons. cbn zeta. cbn [fst snd].
    intros Hk Htruthy.
    specialize (IH _ _ key Hk Htruthy).
    destruct IH as [Hin | (key1 & Hk1 & Hsame)].
    { left. apply elem_of_app. by right. }
    rewrite HookFacts.useSettings_hook in Hk1. cbn [apiKeyDeps] in Hk1.
    injection Hk1 as <-.
    set (query := useQuery (query_options (providerTokensSet auth))) in *.
    rewrite HookFacts.useSettings_effects. fold query.
    unfold useEffect at 1.
    destruct (scheduled object_is (apiKeyDeps hook) (data_prop query "LLM_API_KEY"))
      eqn:Hsched.
    + left. apply elem_of_app. left. apply elem_of_app. left.
      unfold analytics_effect.
      rewrite (object_is_truthy _ _ Hsame), Htruthy. apply list_elem_of_here.
    + right. unfold scheduled in Hsched.
      destruct (apiKeyDeps hook) as [key0 |]; [| discriminate].
      exists key0. split; [reflexivity |].
      apply negb_false_iff in Hsched. by apply object_is_trans with (2 := Hsame).
Qed.

Lemma render_signals DEFAULT_SETTINGS useQuery auth hook :
  let query := useQuery (query_options (providerTokensSet auth)) in
  let key := data_prop query "LLM_API_KEY" in
  signals (useSettings DEFAULT_SETTINGS useQuery auth hook).2
  = if truthy key && scheduled object_is (apiKeyDeps hook) key
    then [user_activated] else [].
Proof.
  intros query key. rewrite HookFacts.useSettings_effects. fold query key.
  rewrite signals_app, signals_tokens, app_nil_r.
  unfold useEffect, analytics_effect. fold key.
  destruct (scheduled object_is (apiKeyDeps hook) key), (truthy key); reflexivity.
Qed.

Lemma renders_no_signal DEFAULT_SETTINGS queries : forall auth hook,
  Forall (fun useQuery : QueryOptions -> UseQueryResult =>
            forall options,
              truthy (data_prop (useQuery options) "LLM_API_KEY") = false) queries ->
  signals (renders DEFAULT_SETTINGS queries auth hook).2 = [].
Proof.
  induction queries as [| useQuery rest IH]; intros auth hook Hall; [reflexivity |].
  apply Forall_cons in Hall as [Hfirst Hrest].
  rewrite renders_cons. cbn zeta. cbn [snd].
  rewrite signals_app, render_signals, Hfirst, (IH _ _ Hrest). reflexivity.
Qed.

(** C8 (as amended): in a render whose fetched API key is falsy (null, the
    empty string, or no data at all) the hook emits no analytics signal; in
    a render whose key is truthy (a non-empty string) it emits
    [user_activated], once, if it is the first render of the hook or the
    key differs from the key of the render before, and nothing if the key
    is the one of the render before; hence, since the hook was mounted,
    whenever the key of the latest render is non-empty the signal has been
    emitted, and while every render's key is falsy none has. *)
Theorem user_activated_signal DEFAULT_SETTINGS :
  (truthy VUndefined = false /\ truthy VNull = false /\ truthy (VStr "") = false
   /\ forall c s, truthy (VStr (String c s)) = true)
  /\ (forall useQuery auth hook,
        let query := useQuery (query_options (providerTokensSet auth)) in
        let key := data_prop query "LLM_API_KEY" in
        let fx := (useSettings DEFAULT_SETTINGS useQuery auth hook).2 in
        (truthy key = false -> signals fx = [])
        /\ (truthy key = true -> apiKeyDeps hook = None ->
            signals fx = [user_activated])
        /\ (forall previous,
              truthy key = true -> apiKeyDeps hook = Some previous ->
              object_is previous key = false ->
              signals fx = [user_activated])
        /\ (forall previous,
              apiKeyDeps hook = Some previous ->
              object_is previous key = true ->
              signals fx = []))
  /\ (forall queries auth key,
        let r := renders DEFAULT_SETTINGS queries auth unmounted in
        apiKeyDeps r.1.2 = Some key ->
        truthy key = true ->
        user_activated ∈ r.2)
  /\ (forall queries auth,
        Forall (fun useQuery : QueryOptions -> UseQueryResult =>
                  forall options,
                    truthy (data_prop (useQuery options) "LLM_API_KEY") = false)
               queries ->
        signals (renders DEFAULT_SETTINGS queries auth unmounted).2 = []).
Proof.
  split; [by repeat split |]. split; [| split].
  - intros useQuery auth hook query key fx. subst fx.
    rewrite render_signals. fold query key. unfold scheduled.
    split; [| split; [| split]].
    + by intros ->.
    + by intros -> ->.
    + by intros previous -> -> ->.
    + intros previous -> ->. by rewrite andb_false_r.
  - intros queries auth key r Hkey Htruthy.
    destruct (renders_signal DEFAULT_SETTINGS queries auth unmounted key Hkey Htruthy)
      as [Hin | (key0 & Hnone & _)]; [exact Hin | discriminate Hnone].
  - intros queries auth. apply renders_no_signal.
Qed.

Lemma user_activated_signal_witness :
  (* the key of the sample settings is a non-empty string ... *)
  apiKeyDeps
    (renders Samples.default_settings
       Samples.first_fetch
       Samples.signed_out unmounted).1.2 = Some (VStr "sk-1")
  /\ truthy (VStr "sk-1") = true
  /\ user_activated
       ∈ (renders Samples.default_settings
            Samples.first_fetch
            Samples.signed_out unmounted).2
  (* ... a first render that shows it sends the signal ... *)
  /\ signals (useSettings Samples.default_settings (fun _ => Samples.fetched)
                Samples.signed_out unmounted).2
     = [user_activated]
  (* ... and so does a render that follows a pending one, *)
  /\ object_is VUndefined (data_prop Samples.fetched "LLM_API_KEY") = false
  /\ signals (useSettings Samples.default_settings (fun _ => Samples.fetched)
                Samples.signed_out
                Samples.after_pending).2
     = [user_activated]
  (* but not a render that follows one with the same key; *)
  /\ object_is (VStr "sk-1") (data_prop Samples.fetched "LLM_API_KEY") = true
  /\ signals (useSettings Samples.default_settings (fun _ => Samples.fetched)
                Samples.signed_out
                {| apiKeyDeps := Some (VStr "sk-1");
                   tokensDeps := Some (Samples.tokens_set, true) |}).2
     = []
  (* the key of a failed fetch is falsy *)
  /\ truthy (data_prop Samples.not_found "LLM_API_KEY") = false
  /\ signals (useSettings Samples.default_settings (fun _ => Samples.not_found)
                Samples.signed_out unmounted).2 = []
  /\ signals (renders Samples.default_settings
                [fun _ => Samples.pending; fun _ => Samples.not_found]
                Samples.signed_out unmounted).2 = [].
Proof.
  pose proof (user_activated_signal Samples.default_settings)
    as (_ & Hrender & Hsince & Hnever).
  assert (Hkey : apiKeyDeps
    (renders Samples.default_settings
       Samples.first_fetch
       Samples.signed_out unmounted).1.2 = Some (VStr "sk-1")) by reflexivity.
  assert (Htruthy : truthy (VStr "sk-1") = true) by reflexivity.
  assert (Hnew : object_is VUndefined (data_prop Samples.fetched "LLM_API_KEY")
                 = false) by reflexivity.
  assert (Hsame : object_is (VStr "sk-1") (data_prop Samples.fetched "LLM_API_KEY")
                  = true) by reflexivity.
  assert (Hfalsy : truthy (data_prop Samples.not_found "LLM_API_KEY") = false)
    by reflexivity.
  split; [exact Hkey |]. split; [exact Htruthy |].
  split; [exact (Hsince _ _ _ Hkey Htruthy) |].
  split.
  { exact (proj1 (proj2 (Hrender (fun _ => Samples.fetched) Samples.signed_out
                           unmounted)) eq_refl eq_refl). }
  split; [exact Hnew |].
  split.
  { exact (proj1 (proj2 (proj2 (Hrender (fun _ => Samples.fetched)
                                  Samples.signed_out Samples.after_pending)))
             VUndefined eq_refl eq_refl Hnew). }
  split; [exact Hsame |].
  split.
  { exact (proj2 (proj2 (proj2 (Hrender (fun _ => Samples.fetched)
                                  Samples.signed_out
                                  {| apiKeyDeps := Some (VStr "sk-1");
                                     tokensDeps := Some (Samples.tokens_set, true) |})))
             (VStr "sk-1") eq_refl Hsame). }
  split; [exact Hfalsy |].
  split.
  { exact (proj1 (Hrender (fun _ => Samples.not_found) Samples.signed_out unmounted)
             Hfalsy). }
  apply Hnever. repeat constructor.
Defined.

(** C8 (as stated) fails: a second successful fetch brings new settings
    with the same non-empty API key, and the render that shows them emits
    no signal: one signal for two fetches. *)
Lemma refetch_with_same_key_is_silent :
  error Cover.refetched = None
  /\ data Cover.refetched <> data Samples.fetched
  /\ data_prop Cover.refetched "LLM_API_KEY" = VStr "sk-1"
  /\ signals
       (useSettings Samples.default_settings (fun _ => Cover.refetched)
          (commit Samples.signed_out
             (useSettings Samples.default_settings (fun _ => Samples.fetched)
                Samples.signed_out unmounted).2)
          (useSettings Samples.default_settings (fun _ => Samples.fetched)
             Samples.signed_out unmounted).1.2).2 = []
  /\ signals
       (renders Samples.default_settings
          [fun _ => Samples.fetched; fun _ => Cover.refetched]
          Samples.signed_out unmounted).2 = [user_activated].
Proof.
  split; [reflexivity |]. split.
  { intros Heq.
    apply (f_equal (fun d : option obj => d ≫= (.!! "LANGUAGE"))) in Heq.
    vm_compute in Heq. discriminate Heq. }
  repeat split.
Qed.

(** *** The provider tokens effect *)

Lemma render_commit DEFAULT_SETTINGS useQuery auth hook :
  let query := useQuery (query_options (providerTokensSet auth)) in
  let tokens_set := data_prop query "PROVIDER_TOKENS_SET" in
  commit auth (useSettings DEFAULT_SETTINGS useQuery auth hook).2
  = if truthy tokens_set
       && scheduled same_tokens_deps (tokensDeps hook) (tokens_set, isFetched query)
    then {| providerTokensSet := tokens_set;
            providersAreSet := at_least_one_set tokens_set |}
    else auth.
Proof.
  intros query tokens_set. rewrite HookFacts.useSettings_effects. fold query tokens_set.
  rewrite commit_app, commit_analytics. unfold useEffect.
  destruct (scheduled same_tokens_deps _ _).
  - destruct (truthy tokens_set) eqn:Htruthy; cbn [andb].
    + by apply commit_tokens.
    + unfold tokens_effect. fold tokens_set. by rewrite Htruthy.
  - by rewrite andb_false_r.
Qed.

(** The session holds the map of the latest render, unless neither the map
    nor the session has changed during the renders. *)
Lemma renders_tokens DEFAULT_SETTINGS queries : forall auth hook v f,
  let r := renders DEFAULT_SETTINGS queries auth hook in
  tokensDeps r.1.2 = Some (v, f) ->
  truthy v = true ->
  (object_is (providerTokensSet r.1.1) v = true
   /\ providersAreSet r.1.1 = at_least_one_set (providerTokensSet r.1.1))
  \/ (r.1.1 = auth
      /\ exists v0, tokensDeps hook = Some (v0, f) /\ object_is v0 v = true).
Proof.
  induction queries as [| useQuery rest IH]; intros auth hook v f.
  - cbn. intros Hdeps _. right. split; [reflexivity |].
    exists v. split; [exact Hdeps | apply object_is_refl].
  - rewrite renders_cons. cbn zeta. cbn [fst snd].
    intros Hdeps Htruthy.
    specialize (IH _ _ v f Hdeps Htruthy).
    destruct IH as [Hheld | (Hauth & v1 & Hdeps1 & Hsame)]; [by left |].
    rewrite Hauth. clear Hauth Hdeps.
    rewrite HookFacts.useSettings_hook in Hdeps1. cbn [tokensDeps] in Hdeps1.
    rewrite render_commit.
    set (query := useQuery (query_options (providerTokensSet auth))) in *.
    injection Hdeps1 as <- <-.
    rewrite (object_is_truthy _ _ Hsame), Htruthy. cbn [andb].
    destruct (scheduled same_tokens_deps (tokensDeps hook)
                (data_prop query "PROVIDER_TOKENS_SET", isFetched query))
      eqn:Hsched.
    + left. by cbn.
    + right. split; [reflexivity |]. unfold scheduled in Hsched.
      destruct (tokensDeps hook) as [[v0 f0] |]; [| discriminate].
      apply negb_false_iff, andb_true_iff in Hsched as [Hv Hf]. cbn in Hv, Hf.
      apply eqb_prop in Hf. subst f0.
      exists v0. split; [reflexivity |]. by apply object_is_trans with (2 := Hsame).
Qed.

(** C6: in a render in which the fetched settings carry the provider
    token map (the property is truthy, as every map is) and for which React
    runs the effect (the first render, or the map or [isFetched] differ
    from the previous render's), the hook calls [setProviderTokensSet] with
    that map and then [setProvidersAreSet] with the logical OR over the
    map's values, true iff some provider's value is set; and since the hook
    was mounted, the session holds the map of the latest render together
    with the boolean derived from it. *)
Theorem provider_tokens_written DEFAULT_SETTINGS :
  (forall useQuery auth hook,
     let query := useQuery (query_options (providerTokensSet auth)) in
     let tokens_set := data_prop query "PROVIDER_TOKENS_SET" in
     let fx := (useSettings DEFAULT_SETTINGS useQuery auth hook).2 in
     truthy tokens_set = true ->
     scheduled same_tokens_deps (tokensDeps hook) (tokens_set, isFetched query) = true ->
     (exists fx1,
        fx = fx1 ++ [ setProviderTokensSet tokens_set;
                      setProvidersAreSet (at_least_one_set tokens_set) ]
        /\ signals fx1 = fx1)
     /\ commit auth fx
        = {| providerTokensSet := tokens_set;
             providersAreSet := at_least_one_set tokens_set |})
  /\ (forall id (m : gmap string value),
        truthy (VObj id m) = true
        /\ (at_least_one_set (VObj id m) = true
            <-> exists provider v, m !! provider = Some v /\ truthy v = true))
  /\ (forall hook v f,
        scheduled same_tokens_deps (tokensDeps hook) (v, f) = true
        <-> tokensDeps hook = None
            \/ exists v0 f0, tokensDeps hook = Some (v0, f0)
                             /\ (object_is v0 v = false \/ f0 <> f))
  /\ (forall queries auth v f,
        let r := renders DEFAULT_SETTINGS queries auth unmounted in
        tokensDeps r.1.2 = Some (v, f) ->
        truthy v = true ->
        object_is (providerTokensSet r.1.1) v = true
        /\ providersAreSet r.1.1 = at_least_one_set (providerTokensSet r.1.1)).
Proof.
  split; [| split; [| split]].
  - intros useQuery auth hook query tokens_set fx Htruthy Hsched. subst fx. split.
    + rewrite HookFacts.useSettings_effects. fold query tokens_set.
      eexists. split.
      * f_equal. unfold useEffect. rewrite Hsched.
        unfold tokens_effect. fold tokens_set. rewrite Htruthy. reflexivity.
      * unfold useEffect, analytics_effect.
        destruct (scheduled object_is _ _); [| reflexivity].
        destruct (truthy (data_prop query "LLM_API_KEY")); reflexivity.
    + rewrite render_commit. fold query tokens_set. by rewrite Htruthy, Hsched.
  - intros id m. split; [reflexivity | apply at_least_one_set_map].
  - intros hook v f. unfold scheduled.
    destruct (tokensDeps hook) as [[v0 f0] |].
    + unfold same_tokens_deps. cbn [fst snd].
      rewrite negb_true_iff, andb_false_iff. split.
      * intros H. right. exists v0, f0. split; [reflexivity |].
        destruct H as [H | H]; [by left | right].
        intros ->. by rewrite eqb_reflx in H.
      * intros [H | (v1 & f1 & [= <- <-] & [H | H])]; [discriminate | by left | right].
        apply not_true_is_false. intros Heq. by apply eqb_prop in Heq.
    + split; [by left | reflexivity].
  - intros queries auth v f r Hdeps Htruthy.
    destruct (renders_tokens DEFAULT_SETTINGS queries auth unmounted v f Hdeps Htruthy)
      as [Hheld | (_ & v0 & Hnone & _)]; [exact Hheld | discriminate Hnone].
Qed.

Lemma provider_tokens_written_witness :
  data_prop Samples.fetched "PROVIDER_TOKENS_SET" = Samples.tokens_set
  /\ truthy Samples.tokens_set = true
  /\ scheduled same_tokens_deps (tokensDeps Samples.after_pending)
       (Samples.tokens_set, isFetched Samples.fetched) = true
  /\ commit Samples.signed_out
       (useSettings Samples.default_settings (fun _ => Samples.fetched)
          Samples.signed_out Samples.after_pending).2
     = {| providerTokensSet := Samples.tokens_set; providersAreSet := true |}
  /\ tokensDeps
       (renders Samples.default_settings Samples.first_fetch
          Samples.signed_out unmounted).1.2 = Some (Samples.tokens_set, true)
  /\ object_is
       (providerTokensSet
          (renders Samples.default_settings Samples.first_fetch
             Samples.signed_out unmounted).1.1) Samples.tokens_set = true.
Proof.
  pose proof (provider_tokens_written Samples.default_settings)
    as (Hrender & _ & _ & Hsince).
  set (tokens_set := Samples.tokens_set).
  assert (Hdata : data_prop Samples.fetched "PROVIDER_TOKENS_SET" = tokens_set)
    by reflexivity.
  assert (Htruthy : truthy tokens_set = true) by reflexivity.
  assert (Hsched :
    scheduled same_tokens_deps (tokensDeps Samples.after_pending)
      (tokens_set, isFetched Samples.fetched) = true) by reflexivity.
  assert (Hdeps :
    tokensDeps
      (renders Samples.default_settings Samples.first_fetch
         Samples.signed_out unmounted).1.2 = Some (tokens_set, true))
    by reflexivity.
  split; [exact Hdata |]. split; [exact Htruthy |]. split; [exact Hsched |].
  split.
  { exact (proj2 (Hrender (fun _ => Samples.fetched) Samples.signed_out
                    Samples.after_pending Htruthy Hsched)). }
  split; [exact Hdeps |].
  exact (proj1 (Hsince Samples.first_fetch Samples.signed_out tokens_set true
                  Hdeps Htruthy)).
Defined.

End EffectFacts.

(* ===================================================================== *)
(** ** Repository pagination *)
(* ===================================================================== *)

Module GitHubFacts.
Import JS GitHub Shape.

(** The link is the [link_header] of the first record, [""] without one. *)
Lemma link_of_first data :
  App.link_of data = default "" (head data ≫= link_header).
Proof.
  destruct data as [| first rest]; [reflexivity |]. cbn.
  by destruct (link_header first) as [[| c s] |].
Qed.


Section app.

Variable extractNextPageFromLink : string -> option Z.
Variable openHands_get : Request -> promise (list GitHubRepository).
Variables (installationIndex : Z) (installations : list Z).
Variables (page per_page : option Z).

Let call :=
  App.retrieveGitHubAppRepositories extractNextPageFromLink openHands_get
    installationIndex installations page per_page.

(** The one request of a call. *)
Lemma app_request :
  call.1 =
  [ {| url := "/api/user/repositories";
       params := [ ("sort", VStr "pushed");
                   ("page", VNum (default 1 page));
                   ("per_page", VNum (default 30 per_page));
                   ("installation_id",
                    num_or_undefined (at_index installations installationIndex)) ] |} ].
Proof. reflexivity. Qed.

Lemma app_rejected req e :
  call.1 = [req] -> openHands_get req = Rejected e -> call.2 = Rejected e.
Proof.
  intros [= <-] Hget. subst call. cbn [snd App.retrieveGitHubAppRepositories].
  unfold mbind, promise_bind. by rewrite Hget.
Qed.

Lemma app_resolved req response :
  call.1 = [req] -> openHands_get req = Resolved response ->
  call.2 = Resolved
    {| App.data := response;
       App.nextPage := extractNextPageFromLink (App.link_of response);
       App.installationIndex :=
         advance (extractNextPageFromLink (App.link_of response))
                 installationIndex installations |}.
Proof.
  intros [= <-] Hget. subst call. cbn [snd App.retrieveGitHubAppRepositories].
  unfold mbind, promise_bind. by rewrite Hget.
Qed.

End app.

(** C3 (as amended): the link-header token is the [link_header] of the
    first record, the empty string when the list is empty or the field is
    absent; the returned [nextPage] is what [extractNextPageFromLink] makes
    of it; if that is a page number other than 0, the returned
    [installationIndex] is [i]; if nothing is extracted, it is [i + 1] when
    [i + 1] is within bounds and null otherwise. *)
Theorem app_next_installation extractNextPageFromLink openHands_get
    i installations page per_page req response :
  let call :=
    App.retrieveGitHubAppRepositories extractNextPageFromLink openHands_get
      i installations page per_page in
  let link := default "" (head response ≫= link_header) in
  call.1 = [req] ->
  openHands_get req = Resolved response ->
  exists result,
    call.2 = Resolved result
    /\ App.data result = response
    /\ App.nextPage result = extractNextPageFromLink link
    /\ (forall n, extractNextPageFromLink link = Some n -> n <> 0 ->
          App.installationIndex result = Some i)
    /\ (extractNextPageFromLink link = None ->
        i + 1 < Z.of_nat (length installations) ->
        App.installationIndex result = Some (i + 1))
    /\ (extractNextPageFromLink link = None ->
        Z.of_nat (length installations) <= i + 1 ->
        App.installationIndex result = None).
Proof.
  intros call link Hreq Hget. eexists.
  split; [exact (app_resolved _ _ _ _ _ _ _ _ Hreq Hget) |].
  cbn [App.data App.nextPage App.installationIndex].
  rewrite link_of_first. fold link. unfold advance.
  split; [reflexivity |]. split; [reflexivity |]. split; [| split].
  - intros n -> Hn. cbn. by apply Z.eqb_neq in Hn as ->.
  - intros -> Hlt. cbn. by apply Z.ltb_lt in Hlt as ->.
  - intros -> Hge. cbn. by apply Z.ltb_ge in Hge as ->.
Qed.

Lemma app_next_installation_witness :
  (* a next page on the first installation *)
  (exists result,
     (App.retrieveGitHubAppRepositories Samples.extract
        (Samples.answers (Samples.app_page Samples.link_to_page_2))
        0 [10; 20] None None).2 = Resolved result
     /\ App.nextPage result = Some 2
     /\ App.installationIndex result = Some 0)
  (* no next page on the first installation *)
  /\ (exists result,
        (App.retrieveGitHubAppRepositories Samples.extract
           (Samples.answers Samples.app_last_page)
           0 [10; 20] None None).2 = Resolved result
        /\ App.nextPage result = None
        /\ App.installationIndex result = Some 1)
  (* no next page on the last installation *)
  /\ (exists result,
        (App.retrieveGitHubAppRepositories Samples.extract
           (Samples.answers Samples.app_last_page)
           1 [10; 20] None None).2 = Resolved result
        /\ App.nextPage result = None
        /\ App.installationIndex result = None).
Proof.
  split; [| split].
  - destruct (app_next_installation Samples.extract
                (Samples.answers (Samples.app_page Samples.link_to_page_2))
                0 [10; 20] None None _ _ eq_refl eq_refl)
      as (result & Hcall & _ & Hpage & Hstay & _).
    exists result. split; [exact Hcall |]. split; [exact Hpage |].
    apply (Hstay 2); [reflexivity | discriminate].
  - destruct (app_next_installation Samples.extract
                (Samples.answers Samples.app_last_page)
                0 [10; 20] None None _ _ eq_refl eq_refl)
      as (result & Hcall & _ & Hpage & _ & Hnext & _).
    exists result. split; [exact Hcall |]. split; [exact Hpage |].
    apply Hnext; [reflexivity | reflexivity].
  - destruct (app_next_installation Samples.extract
                (Samples.answers Samples.app_last_page)
                1 [10; 20] None None _ _ eq_refl eq_refl)
      as (result & Hcall & _ & Hpage & _ & _ & Hend).
    exists result. split; [exact Hcall |]. split; [exact Hpage |].
    apply Hend; [reflexivity | discriminate].
Defined.

(** C3 (as stated) fails: when the page number extracted is 0, the call
    reports page 0 and still leaves the installation. *)
Lemma app_page_zero_leaves_installation :
  Samples.extract
    (default "" (head (Samples.app_page Samples.link_to_page_0) ≫= link_header))
  = Some 0
  /\ (App.retrieveGitHubAppRepositories Samples.extract
        (Samples.answers (Samples.app_page Samples.link_to_page_0))
        0 [10; 20] None None).2
     = Resolved {| App.data := Samples.app_page Samples.link_to_page_0;
                   App.nextPage := Some 0;
                   App.installationIndex := Some 1 |}.
Proof. split; reflexivity. Qed.



Section user.

Variable extractNextPageFromLink : string -> option Z.
Variable openHands_get : Request -> promise User.Response.
Variables (page per_page : option Z).

Let call :=
  User.retrieveGitHubUserRepositories extractNextPageFromLink openHands_get
    page per_page.

Lemma user_request :
  call.1 =
  [ {| url := "/api/user/repositories";
       params := [ ("sort", VStr "pushed");
                   ("page", VNum (default 1 page));
                   ("per_page", VNum (default 30 per_page)) ] |} ].
Proof. reflexivity. Qed.

Lemma user_resolved req response :
  call.1 = [req] -> openHands_get req = Resolved response ->
  call.2 = Resolved
    {| User.data := User.repositories response;
       User.nextPage :=
         match User.github_cursor (User.pagination response) with
         | Some (String c rest) => extractNextPageFromLink (String c rest)
         | _ => has_more_rule (User.has_more (User.pagination response))
                              (default 1 page)
         end;
       User.totalCount := User.total_count (User.pagination response);
       User.providerCursors := User.provider_cursors (User.pagination response) |}.
Proof.
  intros [= <-] Hget. subst call. cbn [snd User.retrieveGitHubUserRepositories].
  unfold mbind at 1. unfold promise_bind. rewrite Hget. cbn [await mret promise_ret].
  do 2 f_equal.
  by destruct (User.github_cursor (User.pagination response)) as [[| c rest] |].
Qed.

End user.

(** C4 (as amended): the call returns the repositories list, the
    server-reported [total_count] and the whole [provider_cursors] mapping;
    if [provider_cursors] holds a non-empty github cursor, [nextPage] is
    what [extractNextPageFromLink] makes of that cursor, whatever
    [has_more] is; otherwise (no github cursor, or an empty one) [nextPage]
    is [p + 1] if [has_more] is true and null if not. *)
Theorem user_next_page extractNextPageFromLink openHands_get
    page per_page req response :
  let call :=
    User.retrieveGitHubUserRepositories extractNextPageFromLink openHands_get
      page per_page in
  let p := default 1 page in
  let cursor := User.github_cursor (User.pagination response) in
  let has_more := User.has_more (User.pagination response) in
  call.1 = [req] ->
  openHands_get req = Resolved response ->
  exists result,
    call.2 = Resolved result
    /\ User.data result = User.repositories response
    /\ User.totalCount result = User.total_count (User.pagination response)
    /\ User.providerCursors result = User.provider_cursors (User.pagination response)
    /\ (forall c, cursor = Some c -> c <> "" ->
          User.nextPage result = extractNextPageFromLink c)
    /\ (cursor = None \/ cursor = Some "" -> has_more = true ->
        User.nextPage result = Some (p + 1))
    /\ (cursor = None \/ cursor = Some "" -> has_more = false ->
        User.nextPage result = None).
Proof.
  intros call p cursor has_more Hreq Hget. eexists.
  split; [exact (user_resolved _ _ _ _ _ _ Hreq Hget) |].
  cbn [User.data User.nextPage User.totalCount User.providerCursors].
  fold cursor has_more p.
  split; [reflexivity |]. split; [reflexivity |]. split; [reflexivity |].
  split; [| split].
  - intros c -> Hc. by destruct c.
  - intros [-> | ->] ->; reflexivity.
  - intros [-> | ->] ->; reflexivity.
Qed.

Lemma user_next_page_witness :
  (* a github cursor that parses to page 2, whatever has_more says *)
  (exists result,
     (User.retrieveGitHubUserRepositories Samples.extract
        (Samples.answers
           (Samples.user_page false (Some {[ "github" := Samples.link_to_page_2 ]})))
        (Some 4) None).2 = Resolved result
     /\ User.nextPage result = Some 2
     /\ User.totalCount result = 50)
  (* no github cursor and more to come *)
  /\ (exists result,
        (User.retrieveGitHubUserRepositories Samples.extract
           (Samples.answers (Samples.user_page true (Some ∅)))
           (Some 2) None).2 = Resolved result
        /\ User.nextPage result = Some 3)
  (* no github cursor and nothing more *)
  /\ (exists result,
        (User.retrieveGitHubUserRepositories Samples.extract
           (Samples.answers (Samples.user_page false (Some ∅)))
           (Some 2) None).2 = Resolved result
        /\ User.nextPage result = None).
Proof.
  split; [| split].
  - destruct (user_next_page Samples.extract
                (Samples.answers
                   (Samples.user_page false
                      (Some {[ "github" := Samples.link_to_page_2 ]})))
                (Some 4) None _ _ eq_refl eq_refl)
      as (result & Hcall & _ & Htotal & _ & Hcursor & _).
    exists result. split; [exact Hcall |]. split; [| exact Htotal].
    rewrite (Hcursor Samples.link_to_page_2); [reflexivity | reflexivity | discriminate].
  - destruct (user_next_page Samples.extract
                (Samples.answers (Samples.user_page true (Some ∅)))
                (Some 2) None _ _ eq_refl eq_refl)
      as (result & Hcall & _ & _ & _ & _ & Hmore & _).
    exists result. split; [exact Hcall |].
    apply Hmore; [by left | reflexivity].
  - destruct (user_next_page Samples.extract
                (Samples.answers (Samples.user_page false (Some ∅)))
                (Some 2) None _ _ eq_refl eq_refl)
      as (result & Hcall & _ & _ & _ & _ & _ & Hend).
    exists result. split; [exact Hcall |].
    apply Hend; [by left | reflexivity].
Defined.

(** C4 (as stated) fails: [provider_cursors] contains a github cursor, the
    empty string, and [nextPage] follows [has_more] instead of being what
    [extractNextPageFromLink] makes of the cursor. *)
Lemma user_empty_cursor_follows_has_more :
  User.github_cursor
    (User.pagination (Samples.user_page true (Some {[ "github" := "" ]})))
  = Some ""
  /\ Samples.extract "" = None
  /\ (User.retrieveGitHubUserRepositories Samples.extract
        (Samples.answers (Samples.user_page true (Some {[ "github" := "" ]})))
        (Some 2) None).2
     = Resolved
         {| User.data :=
              User.repositories (Samples.user_page true (Some {[ "github" := "" ]}));
            User.nextPage := Some 3;
            User.totalCount := 50;
            User.providerCursors := Some {[ "github" := "" ]} |}.
Proof. repeat split. Qed.

(** C9: when the github cursor is a non-empty string on which
    [extractNextPageFromLink] returns null, [nextPage] is null, also when
    [has_more] is true; a non-empty cursor always decides [nextPage] by
    itself, and it is exactly the absent and the empty cursor that fall
    through to the [has_more] rule. *)
Theorem user_cursor_short_circuits extractNextPageFromLink openHands_get
    page per_page req response :
  let call :=
    User.retrieveGitHubUserRepositories extractNextPageFromLink openHands_get
      page per_page in
  let p := default 1 page in
  let cursor := User.github_cursor (User.pagination response) in
  let has_more := User.has_more (User.pagination response) in
  call.1 = [req] ->
  openHands_get req = Resolved response ->
  exists result,
    call.2 = Resolved result
    /\ (forall c, cursor = Some c -> c <> "" ->
          extractNextPageFromLink c = None ->
          User.nextPage result = None
          /\ (has_more = true -> User.nextPage result <> has_more_rule has_more p))
    /\ (forall c, cursor = Some c -> c <> "" ->
          User.nextPage result = extractNextPageFromLink c)
    /\ (cursor = None \/ cursor = Some "" ->
        User.nextPage result = has_more_rule has_more p).
Proof.
  intros call p cursor has_more Hreq Hget. eexists.
  split; [exact (user_resolved _ _ _ _ _ _ Hreq Hget) |].
  cbn [User.nextPage]. fold cursor has_more p.
  split; [| split].
  - intros c -> Hc Hnull. destruct c as [| a rest]; [done |].
    rewrite Hnull. split; [reflexivity |]. by intros ->.
  - intros c -> Hc. by destruct c.
  - by intros [-> | ->].
Qed.

Lemma user_cursor_short_circuits_witness :
  User.github_cursor
    (User.pagination
       (Samples.user_page true (Some {[ "github" := Samples.link_without_next ]})))
  = Some Samples.link_without_next
  /\ Samples.link_without_next <> ""
  /\ Samples.extract Samples.link_without_next = None
  /\ exists result,
       (User.retrieveGitHubUserRepositories Samples.extract
          (Samples.answers
             (Samples.user_page true
                (Some {[ "github" := Samples.link_without_next ]})))
          (Some 2) None).2 = Resolved result
       /\ User.nextPage result = None.
Proof.
  assert (Hcursor :
    User.github_cursor
      (User.pagination
         (Samples.user_page true (Some {[ "github" := Samples.link_without_next ]})))
    = Some Samples.link_without_next) by reflexivity.
  assert (Hne : Samples.link_without_next <> "") by discriminate.
  assert (Hnull : Samples.extract Samples.link_without_next = None) by reflexivity.
  split; [exact Hcursor |]. split; [exact Hne |]. split; [exact Hnull |].
  destruct (user_cursor_short_circuits Samples.extract
              (Samples.answers
                 (Samples.user_page true
                    (Some {[ "github" := Samples.link_without_next ]})))
              (Some 2) None _ _ eq_refl eq_refl)
    as (result & Hcall & Hshort & _).
  exists result. split; [exact Hcall |].
  exact (proj1 (Hshort _ Hcursor Hne Hnull)).
Defined.

End GitHubFacts.


(* ===================================================================== *)
(** ** More on the adapter and the settings types *)
(* ===================================================================== *)

Module AdapterFacts.
Import JS SettingsTypes UseSettings Shape Variance Cover.

(** Membership in a list that is written out. *)
Ltac in_list := apply list_elem_of_In; cbn; auto 20.

Lemma conforms_has_type o t f tf :
  conforms o t = true -> (f, tf) ∈ t ->
  exists v, o !! f = Some v /\ has_type v tf = true.
Proof.
  unfold conforms. intros H Hin.
  rewrite forallb_forall in H. apply list_elem_of_In in Hin.
  specialize (H _ Hin). cbn in H.
  destruct (o !! f) as [v|]; [by exists v | discriminate].
Qed.

Lemma conforms_intro o t :
  (forall f tf, (f, tf) ∈ t -> exists v, o !! f = Some v /\ has_type v tf = true) ->
  conforms o t = true.
Proof.
  intros H. unfold conforms. apply forallb_forall. intros [f tf] Hin. cbn.
  apply list_elem_of_In, H in Hin as (v & -> & Hv). exact Hv.
Qed.

Lemma conforms_missing o t f tf :
  (f, tf) ∈ t -> o !! f = None -> conforms o t = false.
Proof.
  intros Hin Hnone. apply not_true_is_false. intros H.
  destruct (conforms_has_type _ _ _ _ H Hin) as (v & Hv & _). congruence.
Qed.

Lemma conforms_intersect o a b :
  conforms o (intersect a b) = conforms o a && conforms o b.
Proof. apply forallb_app. Qed.

Lemma adapter_result_lookup apiSettings K k :
  (K, k) ∈ adapter_mapping ->
  (prop apiSettings <$> (list_to_map adapter_mapping : gmap string string)) !! K
  = Some apiSettings.[k].
Proof.
  intros Hin. apply SettingsFacts.adapter_mapping_lookup in Hin.
  by rewrite lookup_fmap, Hin.
Qed.

(** X1: on every payload object [getSettingsQueryFn] resolves to an object
    of twelve entries; an entry whose wire property is missing from the
    payload is there with the value [undefined], and a property that is
    there is copied as it is. *)
Theorem getSettingsQueryFn_missing_fields apiSettings :
  exists settings,
    getSettingsQueryFn (Resolved apiSettings) = Resolved settings
    /\ size settings = 12%nat
    /\ forall K k, (K, k) ∈ adapter_mapping ->
         (apiSettings !! k = None -> settings !! K = Some VUndefined)
         /\ (forall v, apiSettings !! k = Some v -> settings !! K = Some v).
Proof.
  eexists. split; [apply SettingsFacts.getSettingsQueryFn_resolved |].
  split; [by rewrite map_size_fmap |].
  intros K k Hin. rewrite (adapter_result_lookup _ _ _ Hin). unfold prop.
  split; [by intros -> | by intros v ->].
Qed.

Lemma getSettingsQueryFn_missing_fields_witness :
  (("LLM_MODEL", "llm_model") ∈ adapter_mapping)
  /\ (∅ : obj) !! "llm_model" = None
  /\ Samples.payload !! "llm_model" = Some (VStr "gpt-4")
  /\ (exists settings,
        getSettingsQueryFn (Resolved ∅) = Resolved settings
        /\ size settings = 12%nat
        /\ settings !! "LLM_MODEL" = Some VUndefined)
  /\ (exists settings,
        getSettingsQueryFn (Resolved Samples.payload) = Resolved settings
        /\ settings !! "LLM_MODEL" = Some (VStr "gpt-4")).
Proof.
  assert (Hin : ("LLM_MODEL", "llm_model") ∈ adapter_mapping) by compute_done.
  assert (Hnone : (∅ : obj) !! "llm_model" = None) by reflexivity.
  assert (Hsome : Samples.payload !! "llm_model" = Some (VStr "gpt-4"))
    by reflexivity.
  split; [exact Hin |]. split; [exact Hnone |]. split; [exact Hsome |]. split.
  - destruct (getSettingsQueryFn_missing_fields ∅)
      as (settings & Hres & Hsize & Hfields).
    exists settings. split; [exact Hres |]. split; [exact Hsize |].
    exact (proj1 (Hfields _ _ Hin) Hnone).
  - destruct (getSettingsQueryFn_missing_fields Samples.payload)
      as (settings & Hres & _ & Hfields).
    exists settings. split; [exact Hres |].
    exact (proj2 (Hfields _ _ Hin) _ Hsome).
Defined.

(** X2: the settings the adapter returns depend on nothing but the twelve
    wire properties it reads: two payloads that agree on them give the same
    settings, so setting or removing any other property of the payload
    ([provider_tokens], [github_token_is_set], ...) changes nothing. *)
Theorem getSettingsQueryFn_reads_only :
  (forall apiSettings apiSettings' : obj,
     (forall k, k ∈ wire_reads -> apiSettings.[k] = apiSettings'.[k]) ->
     getSettingsQueryFn (Resolved apiSettings)
     = getSettingsQueryFn (Resolved apiSettings'))
  /\ (forall (apiSettings : obj) k v,
        k ∉ wire_reads ->
        getSettingsQueryFn (Resolved (<[ k := v ]> apiSettings))
        = getSettingsQueryFn (Resolved apiSettings)
        /\ getSettingsQueryFn (Resolved (delete k apiSettings))
           = getSettingsQueryFn (Resolved apiSettings)).
Proof.
  assert (Hagree : forall apiSettings apiSettings' : obj,
     (forall k, k ∈ wire_reads -> apiSettings.[k] = apiSettings'.[k]) ->
     getSettingsQueryFn (Resolved apiSettings)
     = getSettingsQueryFn (Resolved apiSettings')).
  { intros api api' H. rewrite !SettingsFacts.getSettingsQueryFn_resolved.
    f_equal. apply map_eq. intros K. rewrite !lookup_fmap.
    destruct (list_to_map adapter_mapping !! K) as [k |] eqn:HK; [| reflexivity].
    cbn. f_equal. apply H. apply SettingsFacts.adapter_mapping_lookup in HK.
    unfold wire_reads. apply list_elem_of_fmap. by exists (K, k). }
  split; [exact Hagree |].
  intros api k v Hk. split; apply Hagree; intros k' Hk'; unfold prop.
  - rewrite lookup_insert_ne; [reflexivity | by intros ->].
  - rewrite lookup_delete_ne; [reflexivity | by intros ->].
Qed.

Lemma getSettingsQueryFn_reads_only_witness :
  ("provider_tokens" ∉ wire_reads)
  /\ getSettingsQueryFn
       (Resolved (<[ "provider_tokens" := VNull ]> Samples.payload))
     = getSettingsQueryFn (Resolved Samples.payload)
  /\ getSettingsQueryFn (Resolved (delete "provider_tokens" Samples.payload))
     = getSettingsQueryFn (Resolved Samples.payload).
Proof.
  assert (Hout : "provider_tokens" ∉ wire_reads) by compute_done.
  split; [exact Hout |].
  exact (proj2 getSettingsQueryFn_reads_only Samples.payload
           "provider_tokens" VNull Hout).
Defined.

Lemma Settings_filled_eq :
  Settings_filled
  = [ ("LLM_MODEL", TString);
      ("LLM_BASE_URL", TString);
      ("AGENT", TString);
      ("LANGUAGE", TString);
      ("LLM_API_KEY", TUnion TString TNull);
      ("CONFIRMATION_MODE", TBoolean);
      ("SECURITY_ANALYZER", TString);
      ("REMOTE_RUNTIME_RESOURCE_FACTOR", TUnion TNumber TNull);
      ("ENABLE_DEFAULT_CONDENSER", TBoolean);
      ("ENABLE_SOUND_NOTIFICATIONS", TBoolean);
      ("USER_CONSENTS_TO_ANALYTICS", TUnion TBoolean TNull) ].
Proof. reflexivity. Qed.

Lemma Settings_filled_sub f tf : (f, tf) ∈ Settings_filled -> (f, tf) ∈ Settings.
Proof.
  unfold Settings_filled, ApiSettings_read. intros Hin.
  apply list_elem_of_fmap in Hin as (d & -> & Hin).
  apply list_elem_of_filter in Hin as [_ Hin].
  change Settings with (prod_map client_name id <$> ApiSettings).
  by apply list_elem_of_fmap_2.
Qed.

Lemma conforms_Settings_filled o :
  conforms o Settings = true -> conforms o Settings_filled = true.
Proof.
  intros H. apply conforms_intro. intros f tf Hin.
  apply (conforms_has_type _ _ _ _ H), Settings_filled_sub, Hin.
Qed.

(** X3: on a valid [ApiSettings] payload every field the adapter fills has
    the type [Settings] declares for it; and whatever the payload, the
    result is not a valid [Settings] object, two required fields being
    absent. *)
Theorem getSettingsQueryFn_typed :
  (forall apiSettings,
     conforms apiSettings ApiSettings = true ->
     exists settings,
       getSettingsQueryFn (Resolved apiSettings) = Resolved settings
       /\ conforms settings Settings_filled = true)
  /\ (forall apiSettings settings,
        getSettingsQueryFn (Resolved apiSettings) = Resolved settings ->
        conforms settings Settings = false).
Proof.
  split.
  - intros api Hvalid. eexists.
    split; [apply SettingsFacts.getSettingsQueryFn_resolved |].
    apply conforms_intro. intros K tf Hin. unfold Settings_filled in Hin.
    apply list_elem_of_fmap in Hin as ([f t] & [= -> ->] & Hin).
    apply list_elem_of_filter in Hin as [Hread Hdecl]. cbn in Hread |- *.
    destruct (conforms_has_type _ _ _ _ Hvalid Hdecl) as (v & Hv & Htype).
    exists v. split; [| exact Htype].
    rewrite SettingsFacts.read_fields_result.
    + unfold prop. by rewrite Hv.
    + unfold read_fields. apply list_elem_of_difference. split; [| exact Hread].
      unfold field_names. apply list_elem_of_fmap. by exists (f, t).
  - intros api settings. rewrite SettingsFacts.getSettingsQueryFn_resolved.
    intros [= <-].
    apply (conforms_missing _ _ "GITHUB_TOKEN_IS_SET" TBoolean); [in_list |].
    by rewrite lookup_fmap.
Qed.

Lemma getSettingsQueryFn_typed_witness :
  conforms Samples.payload ApiSettings = true
  /\ getSettingsQueryFn (Resolved Samples.payload) = Resolved Samples.settings
  /\ conforms Samples.settings Settings_filled = true
  /\ conforms Samples.settings Settings = false.
Proof.
  assert (Hvalid : conforms Samples.payload ApiSettings = true)
    by (vm_compute; reflexivity).
  assert (Hres : getSettingsQueryFn (Resolved Samples.payload)
                 = Resolved Samples.settings) by reflexivity.
  split; [exact Hvalid |]. split; [exact Hres |]. split.
  - destruct (proj1 getSettingsQueryFn_typed Samples.payload Hvalid)
      as (settings & Hres' & Hfilled).
    rewrite Hres in Hres'. by injection Hres' as <-.
  - exact (proj2 getSettingsQueryFn_typed _ _ Hres).
Defined.

Lemma has_type_string_or_null v :
  has_type v (TUnion TString TNull) = true ->
  v = VNull \/ exists s, v = VStr s.
Proof. destruct v; cbn; try discriminate; eauto. Qed.

(** X4: [InitConfig]'s [args] are five of the fields of [Settings], with
    the types [Settings] gives them except that [LLM_API_KEY] may not be
    null.  So a valid [Settings] object, and just as well the settings the
    adapter makes of a valid payload, is a valid [args] object exactly when
    its API key is not null. *)
Theorem settings_as_InitConfig_args :
  Forall (fun d => d ∈ Settings \/ (d.1, TUnion d.2 TNull) ∈ Settings)
         InitConfig_args
  /\ forall o,
       conforms o Settings = true \/ conforms o Settings_filled = true ->
       (conforms o InitConfig_args = true <-> o !! "LLM_API_KEY" <> Some VNull).
Proof.
  split.
  { repeat constructor; first [left; in_list | right; in_list]. }
  intros o Hvalid.
  assert (H : conforms o Settings_filled = true).
  { destruct Hvalid as [H | H]; [by apply conforms_Settings_filled | exact H]. }
  clear Hvalid. split.
  - intros Hargs Hnull.
    destruct (conforms_has_type _ _ "LLM_API_KEY" TString Hargs)
      as (v & Hv & Htype); [in_list |].
    rewrite Hv in Hnull. injection Hnull as ->. discriminate Htype.
  - intros Hkey. apply conforms_intro. intros f tf Hin.
    apply list_elem_of_In in Hin. cbn in Hin.
    repeat (destruct Hin as [Hin | Hin]); try contradiction;
      injection Hin as <- <-.
    + apply (conforms_has_type _ _ _ _ H). rewrite Settings_filled_eq. in_list.
    + apply (conforms_has_type _ _ _ _ H). rewrite Settings_filled_eq. in_list.
    + apply (conforms_has_type _ _ _ _ H). rewrite Settings_filled_eq. in_list.
    + destruct (conforms_has_type _ _ "LLM_API_KEY" (TUnion TString TNull) H)
        as (v & Hv & Htype); [rewrite Settings_filled_eq; in_list |].
      exists v. split; [exact Hv |].
      destruct (has_type_string_or_null _ Htype) as [-> | [s ->]];
        [by rewrite Hv in Hkey | reflexivity].
    + apply (conforms_has_type _ _ _ _ H). rewrite Settings_filled_eq. in_list.
Qed.

Lemma settings_as_InitConfig_args_witness :
  conforms Samples.settings Settings_filled = true
  /\ Samples.settings !! "LLM_API_KEY" <> Some VNull
  /\ conforms Samples.settings InitConfig_args = true.
Proof.
  assert (H : conforms Samples.settings Settings_filled = true)
    by (vm_compute; reflexivity).
  assert (Hkey : Samples.settings !! "LLM_API_KEY" <> Some VNull)
    by discriminate.
  split; [exact H |]. split; [exact Hkey |].
  exact (proj2 (proj2 settings_as_InitConfig_args Samples.settings (or_intror H))
           Hkey).
Defined.

(** X5: [PostApiSettings] asks for nothing beyond [ApiSettings] but a
    boolean [unset_github_token], the other two fields of its extension
    being fields of [ApiSettings] already; [PostSettings] asks for the
    whole extension on top of [Settings], so a [PostSettings] object holds
    the provider tokens twice, as [PROVIDER_TOKENS] and as
    [provider_tokens]. *)
Theorem post_shapes o :
  (conforms o PostApiSettings = true
   <-> conforms o ApiSettings = true
       /\ exists b, o !! "unset_github_token" = Some (VBool b))
  /\ (conforms o PostSettings = true
      <-> conforms o Settings = true /\ conforms o Post_extension = true)
  /\ (conforms o PostSettings = true ->
      exists client wire,
        o !! "PROVIDER_TOKENS" = Some client
        /\ o !! "provider_tokens" = Some wire
        /\ has_type client (TRecord TString) = true
        /\ has_type wire (TRecord TString) = true).
Proof.
  assert (Hpost : conforms o PostSettings = true
      <-> conforms o Settings = true /\ conforms o Post_extension = true).
  { unfold PostSettings. rewrite conforms_intersect. apply andb_true_iff. }
  split; [| split; [exact Hpost |]].
  - unfold PostApiSettings. rewrite conforms_intersect, andb_true_iff.
    change (conforms o ApiSettings = true /\ conforms o Post_extension = true
            <-> conforms o ApiSettings = true
                /\ exists b, o !! "unset_github_token" = Some (VBool b)).
    split.
    + intros [Hapi Hext]. split; [exact Hapi |].
      destruct (conforms_has_type _ _ "unset_github_token" TBoolean Hext)
        as (v & Hv & Htype); [in_list |].
      destruct v; try discriminate Htype. by eexists.
    + intros [Hapi [b Hb]]. split; [exact Hapi |].
      apply conforms_intro. intros f tf Hin.
      apply list_elem_of_In in Hin. cbn in Hin.
      repeat (destruct Hin as [Hin | Hin]); try contradiction;
        injection Hin as <- <-.
      * apply (conforms_has_type _ _ _ _ Hapi). in_list.
      * by exists (VBool b).
      * apply (conforms_has_type _ _ _ _ Hapi). in_list.
  - intros H. apply Hpost in H as [Hbase Hext].
    destruct (conforms_has_type _ _ "PROVIDER_TOKENS" (TRecord TString) Hbase)
      as (client & Hclient & Htc); [in_list |].
    destruct (conforms_has_type _ _ "provider_tokens" (TRecord TString) Hext)
      as (wire & Hwire & Htw); [in_list |].
    by exists client, wire.
Qed.

Lemma post_shapes_witness :
  conforms Samples.payload ApiSettings = true
  /\ conforms (<[ "unset_github_token" := VBool true ]> Samples.payload)
       ApiSettings = true
  /\ conforms (<[ "unset_github_token" := VBool true ]> Samples.payload)
       PostApiSettings = true
  /\ conforms Samples.payload PostApiSettings = false.
Proof.
  assert (H : conforms (<[ "unset_github_token" := VBool true ]> Samples.payload)
                ApiSettings = true) by (vm_compute; reflexivity).
  split; [vm_compute; reflexivity |]. split; [exact H |]. split.
  - apply (proj1 (post_shapes _)). split; [exact H |]. by exists true.
  - apply not_true_is_false. intros Hpost.
    apply (proj1 (post_shapes _)) in Hpost as [_ [b Hb]]. discriminate Hb.
Defined.

End AdapterFacts.

(* ===================================================================== *)
(** ** More on the renders of [useSettings] *)
(* ===================================================================== *)

Module RenderFacts.
Import JS UseSettings Shape Cover.

Lemma useSettings_defaults DEFAULT_SETTINGS DEFAULT_SETTINGS' useQuery auth hook :
  (useSettings DEFAULT_SETTINGS useQuery auth hook).2
  = (useSettings DEFAULT_SETTINGS' useQuery auth hook).2
  /\ (useSettings DEFAULT_SETTINGS useQuery auth hook).1.2
     = (useSettings DEFAULT_SETTINGS' useQuery auth hook).1.2.
Proof. by rewrite !HookFacts.useSettings_effects, !HookFacts.useSettings_hook. Qed.

Lemma renders_defaults DEFAULT_SETTINGS DEFAULT_SETTINGS' queries :
  forall auth hook,
    renders DEFAULT_SETTINGS queries auth hook
    = renders DEFAULT_SETTINGS' queries auth hook.
Proof.
  induction queries as [| useQuery rest IH]; intros auth hook; [reflexivity |].
  rewrite !EffectFacts.renders_cons. cbn zeta.
  destruct (useSettings_defaults DEFAULT_SETTINGS DEFAULT_SETTINGS'
              useQuery auth hook) as [-> ->].
  by rewrite IH.
Qed.

(** X6: the effects of the hook read the query, never what the hook
    returns: the effects of a render, the dependency arrays it leaves and
    the session after any sequence of renders are the same whatever
    [DEFAULT_SETTINGS] is; and a render whose query has no data (the first
    fetch failed or has not settled) runs no effect, even when the defaults
    the hook returns on a 404 carry an API key or a provider map. *)
Theorem effects_read_the_query DEFAULT_SETTINGS DEFAULT_SETTINGS' :
  (forall queries auth hook,
     renders DEFAULT_SETTINGS queries auth hook
     = renders DEFAULT_SETTINGS' queries auth hook)
  /\ (forall useQuery auth hook,
        (useSettings DEFAULT_SETTINGS useQuery auth hook).2
        = (useSettings DEFAULT_SETTINGS' useQuery auth hook).2
        /\ (useSettings DEFAULT_SETTINGS useQuery auth hook).1.2
           = (useSettings DEFAULT_SETTINGS' useQuery auth hook).1.2)
  /\ (forall useQuery auth hook,
        data (useQuery (query_options (providerTokensSet auth))) = None ->
        (useSettings DEFAULT_SETTINGS useQuery auth hook).2 = []).
Proof.
  split; [apply renders_defaults |]. split; [apply useSettings_defaults |].
  intros useQuery auth hook Hdata. rewrite HookFacts.useSettings_effects.
  unfold useEffect, analytics_effect, tokens_effect, data_prop.
  rewrite Hdata. cbn [truthy].
  by destruct (scheduled object_is _ _), (scheduled same_tokens_deps _ _).
Qed.

Lemma effects_read_the_query_witness :
  data Samples.not_found = None
  /\ truthy (keyed_defaults.["LLM_API_KEY"]) = true
  /\ truthy (keyed_defaults.["PROVIDER_TOKENS_SET"]) = true
  /\ data (useSettings keyed_defaults (fun _ => Samples.not_found)
             Samples.signed_out unmounted).1.1 = Some keyed_defaults
  /\ (useSettings keyed_defaults (fun _ => Samples.not_found)
        Samples.signed_out unmounted).2 = [].
Proof.
  assert (Hdata : data Samples.not_found = None) by reflexivity.
  split; [exact Hdata |]. split; [reflexivity |]. split; [reflexivity |].
  split; [reflexivity |].
  exact (proj2 (proj2 (effects_read_the_query keyed_defaults keyed_defaults))
           (fun _ => Samples.not_found) Samples.signed_out unmounted Hdata).
Defined.

(** X7: a render that follows another one and sees the same API key, the
    same provider map (the same object) and the same [isFetched] runs no
    effect: a refetch that changes nothing of the three sends no second
    signal and does not write to the session again. *)
Theorem rerender_is_quiet DEFAULT_SETTINGS useQuery useQuery' auth hook :
  let first := useSettings DEFAULT_SETTINGS useQuery auth hook in
  let auth' := commit auth first.2 in
  let query := useQuery (query_options (providerTokensSet auth)) in
  let query' := useQuery' (query_options (providerTokensSet auth')) in
  object_is (api_key query) (api_key query') = true ->
  object_is (tokens_map query) (tokens_map query') = true ->
  isFetched query = isFetched query' ->
  (useSettings DEFAULT_SETTINGS useQuery' auth' first.1.2).2 = [].
Proof.
  intros first auth' query query' Hkey Hmap Hfetched.
  rewrite HookFacts.useSettings_effects. fold query'. subst first.
  rewrite HookFacts.useSettings_hook. fold query.
  unfold useEffect, scheduled, same_tokens_deps.
  cbn [apiKeyDeps tokensDeps fst snd].
  fold (api_key query) (api_key query') (tokens_map query) (tokens_map query').
  rewrite Hkey, Hmap, Hfetched, eqb_reflx. reflexivity.
Qed.

Lemma rerender_is_quiet_witness :
  object_is (api_key Samples.fetched) (api_key refetched) = true
  /\ object_is (tokens_map Samples.fetched) (tokens_map refetched) = true
  /\ isFetched Samples.fetched = isFetched refetched
  /\ data Samples.fetched <> data refetched
  /\ (useSettings Samples.default_settings (fun _ => Samples.fetched)
        Samples.signed_out unmounted).2
     = [ user_activated;
         setProviderTokensSet Samples.tokens_set;
         setProvidersAreSet true ]
  /\ (useSettings Samples.default_settings (fun _ => refetched)
        (commit Samples.signed_out
           (useSettings Samples.default_settings (fun _ => Samples.fetched)
              Samples.signed_out unmounted).2)
        (useSettings Samples.default_settings (fun _ => Samples.fetched)
           Samples.signed_out unmounted).1.2).2 = [].
Proof.
  assert (Hkey : object_is (api_key Samples.fetched) (api_key refetched) = true)
    by reflexivity.
  assert (Hmap : object_is (tokens_map Samples.fetched) (tokens_map refetched)
                 = true) by reflexivity.
  assert (Hfetched : isFetched Samples.fetched = isFetched refetched)
    by reflexivity.
  split; [exact Hkey |]. split; [exact Hmap |]. split; [exact Hfetched |].
  split.
  { intros Heq.
    apply (f_equal (fun d : option obj => d ≫= (.!! "LANGUAGE"))) in Heq.
    vm_compute in Heq. discriminate Heq. }
  split; [reflexivity |].
  exact (rerender_is_quiet Samples.default_settings
           (fun _ => Samples.fetched) (fun _ => refetched)
           Samples.signed_out unmounted Hkey Hmap Hfetched).
Defined.

Lemma object_is_sym a b : object_is a b = object_is b a.
Proof.
  destruct a, b; cbn; try reflexivity.
  - by destruct b, b0.
  - apply Z.eqb_sym.
  - apply String.eqb_sym.
  - apply Nat.eqb_sym.
Qed.

(** While the key stays what the hook saw last, no signal goes out. *)
Lemma renders_same_key DEFAULT_SETTINGS key queries : forall auth hook key0,
  apiKeyDeps hook = Some key0 ->
  object_is key0 key = true ->
  Forall (fun useQuery : QueryOptions -> UseQueryResult =>
            forall options, object_is key (api_key (useQuery options)) = true)
         queries ->
  signals (renders DEFAULT_SETTINGS queries auth hook).2 = [].
Proof.
  induction queries as [| useQuery rest IH]; intros auth hook key0 Hdeps Hsame Hall;
    [reflexivity |].
  apply Forall_cons in Hall as [Hfirst Hrest].
  rewrite EffectFacts.renders_cons. cbn zeta. cbn [snd].
  rewrite EffectFacts.signals_app, EffectFacts.render_signals.
  set (query := useQuery (query_options (providerTokensSet auth))).
  assert (Hkey : object_is key0 (api_key query) = true).
  { apply EffectFacts.object_is_trans with (1 := Hsame), Hfirst. }
  rewrite Hdeps. unfold scheduled. fold (api_key query).
  rewrite Hkey, andb_false_r. cbn [app].
  apply (IH _ _ (api_key query)); [| | exact Hrest].
  - by rewrite HookFacts.useSettings_hook.
  - rewrite object_is_sym. apply Hfirst.
Qed.

(** X8: a hook that sees the same API key in every render since it was
    mounted sends [user_activated] exactly once when that key is truthy,
    however many renders follow, and never when it is falsy; and whatever
    the keys are, the signals of a sequence of renders are no more than the
    renders. *)
Theorem user_activated_once DEFAULT_SETTINGS :
  (forall useQuery queries auth key,
     Forall (fun useQuery : QueryOptions -> UseQueryResult =>
               forall options, object_is key (api_key (useQuery options)) = true)
            (useQuery :: queries) ->
     signals (renders DEFAULT_SETTINGS (useQuery :: queries) auth unmounted).2
     = if truthy key then [user_activated] else [])
  /\ (forall queries auth hook,
        (length (signals (renders DEFAULT_SETTINGS queries auth hook).2)
         <= length queries)%nat).
Proof.
  split.
  - intros useQuery queries auth key Hall.
    apply Forall_cons in Hall as [Hfirst Hrest].
    rewrite EffectFacts.renders_cons. cbn zeta. cbn [snd].
    rewrite EffectFacts.signals_app, EffectFacts.render_signals.
    set (query := useQuery (query_options (providerTokensSet auth))).
    fold (api_key query).
    rewrite (renders_same_key _ key _ _ _ (api_key query)); [| | | exact Hrest].
    + cbn [apiKeyDeps unmounted scheduled].
      pose proof (EffectFacts.object_is_truthy _ _
                    (Hfirst (query_options (providerTokensSet auth)))) as Ht.
      fold query in Ht. rewrite <- Ht, andb_true_r.
      by rewrite app_nil_r.
    + by rewrite HookFacts.useSettings_hook.
    + rewrite object_is_sym. apply Hfirst.
  - induction queries as [| useQuery rest IH]; intros auth hook; [reflexivity |].
    rewrite EffectFacts.renders_cons. cbn zeta. cbn [snd].
    rewrite EffectFacts.signals_app, length_app, EffectFacts.render_signals.
    cbn [length]. specialize (IH (commit auth
      (useSettings DEFAULT_SETTINGS useQuery auth hook).2)
      (useSettings DEFAULT_SETTINGS useQuery auth hook).1.2).
    destruct (_ && _); cbn [length]; lia.
Qed.

Lemma user_activated_once_witness :
  Forall (fun useQuery : QueryOptions -> UseQueryResult =>
            forall options,
              object_is (VStr "sk-1") (api_key (useQuery options)) = true)
         [fun _ => Samples.fetched; fun _ => refetched; fun _ => stale_not_found]
  /\ signals
       (renders Samples.default_settings
          [fun _ => Samples.fetched; fun _ => refetched; fun _ => stale_not_found]
          Samples.signed_out unmounted).2
     = [user_activated].
Proof.
  assert (Hall :
    Forall (fun useQuery : QueryOptions -> UseQueryResult =>
              forall options,
                object_is (VStr "sk-1") (api_key (useQuery options)) = true)
      [fun _ => Samples.fetched; fun _ => refetched; fun _ => stale_not_found]).
  { repeat constructor. }
  split; [exact Hall |].
  exact (proj1 (user_activated_once Samples.default_settings) _ _
           Samples.signed_out (VStr "sk-1") Hall).
Defined.

(** The session after one render. *)
Lemma render_session DEFAULT_SETTINGS useQuery auth hook :
  let auth' := commit auth (useSettings DEFAULT_SETTINGS useQuery auth hook).2 in
  auth' = auth \/ (truthy (providerTokensSet auth') = true /\ consistent auth').
Proof.
  intros auth'. subst auth'. rewrite EffectFacts.render_commit.
  destruct (truthy _) eqn:Htruthy; cbn [andb]; [| by left].
  destruct (scheduled _ _ _); [| by left].
  right. split; [exact Htruthy | reflexivity].
Qed.

(** X9: the hook never clears the session: after any sequence of renders
    the session is the one before them, or it holds a truthy provider map
    together with the boolean derived from that very map; in particular a
    session whose boolean agrees with its map stays so, and a fetch whose
    settings carry no map leaves the map of an earlier fetch in place. *)
Theorem session_never_cleared DEFAULT_SETTINGS queries : forall auth hook,
  let auth' := (renders DEFAULT_SETTINGS queries auth hook).1.1 in
  (auth' = auth \/ (truthy (providerTokensSet auth') = true /\ consistent auth'))
  /\ (consistent auth -> consistent auth')
  /\ (Forall (fun useQuery : QueryOptions -> UseQueryResult =>
                forall options, truthy (tokens_map (useQuery options)) = false)
             queries ->
      auth' = auth).
Proof.
  induction queries as [| useQuery rest IH]; intros auth hook.
  - cbn. split; [by left |]. split; [trivial | reflexivity].
  - rewrite EffectFacts.renders_cons. cbn zeta. cbn [fst].
    set (first := useSettings DEFAULT_SETTINGS useQuery auth hook).
    destruct (IH (commit auth first.2) first.1.2) as (Hrest & Hkeep & Hnone).
    pose proof (render_session DEFAULT_SETTINGS useQuery auth hook) as Hfirst.
    cbn zeta in Hfirst. fold first in Hfirst.
    split; [| split].
    + destruct Hrest as [-> | Hrest]; [exact Hfirst | by right].
    + intros Hcons. apply Hkeep.
      destruct Hfirst as [-> | [_ Hfirst]]; [exact Hcons | exact Hfirst].
    + intros Hall. apply Forall_cons in Hall as [Hhead Htail].
      rewrite (Hnone Htail). subst first. rewrite EffectFacts.render_commit.
      fold (tokens_map (useQuery (query_options (providerTokensSet auth)))).
      by rewrite Hhead.
Qed.

Lemma session_never_cleared_witness :
  consistent signed_in
  /\ Forall (fun useQuery : QueryOptions -> UseQueryResult =>
               forall options, truthy (tokens_map (useQuery options)) = false)
       [fun _ => Samples.pending; fun _ => fetched_without_map]
  /\ (renders Samples.default_settings
        [fun _ => Samples.pending; fun _ => fetched_without_map]
        signed_in unmounted).1.1 = signed_in
  /\ consistent
       (renders Samples.default_settings Samples.first_fetch
          signed_in unmounted).1.1.
Proof.
  assert (Hcons : consistent signed_in) by reflexivity.
  assert (Hall :
    Forall (fun useQuery : QueryOptions -> UseQueryResult =>
              forall options, truthy (tokens_map (useQuery options)) = false)
      [fun _ => Samples.pending; fun _ => fetched_without_map]).
  { repeat constructor. }
  split; [exact Hcons |]. split; [exact Hall |]. split.
  - exact (proj2 (proj2 (session_never_cleared Samples.default_settings _
                           signed_in unmounted)) Hall).
  - exact (proj1 (proj2 (session_never_cleared Samples.default_settings
                           Samples.first_fetch signed_in unmounted)) Hcons).
Defined.

End RenderFacts.

(* ===================================================================== *)
(** ** More on the repository listings *)
(* ===================================================================== *)

Module PaginationFacts.
Import JS GitHub Shape Cover.

(** X10: both listings issue one request, whatever their arguments (an
    index outside of the installations list included), and a rejection of
    that request is passed on: the call is rejected with the error of the
    request. *)
Theorem listings_pass_on_rejections extractNextPageFromLink :
  (forall openHands_get i installations page per_page,
     let call :=
       App.retrieveGitHubAppRepositories extractNextPageFromLink openHands_get
         i installations page per_page in
     exists req,
       call.1 = [req]
       /\ forall e, openHands_get req = Rejected e -> call.2 = Rejected e)
  /\ (forall openHands_get page per_page,
        let call :=
          User.retrieveGitHubUserRepositories extractNextPageFromLink openHands_get
            page per_page in
        exists req,
          call.1 = [req]
          /\ forall e, openHands_get req = Rejected e -> call.2 = Rejected e).
Proof.
  split.
  - intros get i insts page per_page call. subst call. eexists.
    split; [apply GitHubFacts.app_request |].
    match goal with |- forall e, get ?r = _ -> _ => set (req := r) end.
    assert (Hreq : (App.retrieveGitHubAppRepositories extractNextPageFromLink
                      get i insts page per_page).1 = [req]) by reflexivity.
    intros e Hget. exact (GitHubFacts.app_rejected _ _ _ _ _ _ _ _ Hreq Hget).
  - intros get page per_page call. subst call. eexists.
    split; [apply GitHubFacts.user_request |].
    match goal with |- forall e, get ?r = _ -> _ => set (req := r) end.
    intros e Hget. cbn [snd User.retrieveGitHubUserRepositories].
    fold req. unfold mbind, promise_bind. by rewrite Hget.
Qed.

Lemma listings_pass_on_rejections_witness :
  (App.retrieveGitHubAppRepositories Samples.extract
     (fails (HttpError (Some 502))) 0 [10; 20] None None).2
  = Rejected (HttpError (Some 502))
  /\ (User.retrieveGitHubUserRepositories Samples.extract
        (fails (OtherError "Network Error")) None None).2
     = Rejected (OtherError "Network Error").
Proof.
  split.
  - destruct (proj1 (listings_pass_on_rejections Samples.extract)
                (fails (HttpError (Some 502))) 0 [10; 20] None None)
      as (req & _ & Hrejected).
    by apply Hrejected.
  - destruct (proj2 (listings_pass_on_rejections Samples.extract)
                (fails (OtherError "Network Error")) None None)
      as (req & _ & Hrejected).
    by apply Hrejected.
Defined.

(** X11: when the index is within the installations list, the request
    carries the installation id found at that index, next to
    [sort = pushed] and the page and page size, which are 1 and 30 when the
    caller leaves them out. *)
Theorem app_request_in_bounds extractNextPageFromLink openHands_get
    i installations page per_page :
  0 <= i < Z.of_nat (length installations) ->
  exists installationId,
    installations !! Z.to_nat i = Some installationId
    /\ (App.retrieveGitHubAppRepositories extractNextPageFromLink openHands_get
          i installations page per_page).1
       = [ {| url := "/api/user/repositories";
              params := [ ("sort", VStr "pushed");
                          ("page", VNum (default 1 page));
                          ("per_page", VNum (default 30 per_page));
                          ("installation_id", VNum installationId) ] |} ].
Proof.
  intros [Hlo Hhi].
  destruct (lookup_lt_is_Some_2 installations (Z.to_nat i)) as [id Hid]; [lia |].
  exists id. split; [exact Hid |].
  rewrite GitHubFacts.app_request. unfold at_index.
  destruct (Z.ltb_spec i 0) as [Hneg | _]; [lia |]. by rewrite Hid.
Qed.

Lemma app_request_in_bounds_witness :
  0 <= 1 < Z.of_nat (length [10; 20])
  /\ (App.retrieveGitHubAppRepositories Samples.extract
        (Samples.answers Samples.app_last_page) 1 [10; 20] (Some 3) None).1
     = [ {| url := "/api/user/repositories";
            params := [ ("sort", VStr "pushed");
                        ("page", VNum 3);
                        ("per_page", VNum 30);
                        ("installation_id", VNum 20) ] |} ].
Proof.
  assert (Hin : 0 <= 1 < Z.of_nat (length [10; 20])) by (cbn; lia).
  split; [exact Hin |].
  destruct (app_request_in_bounds Samples.extract
              (Samples.answers Samples.app_last_page) 1 [10; 20] (Some 3) None Hin)
    as (id & Hid & Hreq).
  injection Hid as <-. exact Hreq.
Defined.

(** X12: from an index within the installations list the call never leads
    out of it: a returned [installationIndex] is the index itself or the
    one after it, and within the list; it is the index itself exactly when
    the returned [nextPage] is truthy; and it is null exactly when there is
    no truthy [nextPage] and the index is the last one. *)
Theorem app_cursor_in_bounds extractNextPageFromLink openHands_get
    i installations page per_page req response :
  let call :=
    App.retrieveGitHubAppRepositories extractNextPageFromLink openHands_get
      i installations page per_page in
  0 <= i < Z.of_nat (length installations) ->
  call.1 = [req] ->
  openHands_get req = Resolved response ->
  exists result,
    call.2 = Resolved result
    /\ (forall j, App.installationIndex result = Some j ->
          (j = i \/ j = i + 1) /\ 0 <= j < Z.of_nat (length installations))
    /\ (App.installationIndex result = Some i
        <-> truthy_num (App.nextPage result) = true)
    /\ (App.installationIndex result = None
        <-> truthy_num (App.nextPage result) = false
            /\ i + 1 = Z.of_nat (length installations)).
Proof.
  intros call Hin Hreq Hget. eexists.
  split; [exact (GitHubFacts.app_resolved _ _ _ _ _ _ _ _ Hreq Hget) |].
  cbn [App.installationIndex App.nextPage]. unfold advance.
  destruct (truthy_num _).
  - split; [| split].
    + intros j [= <-]. lia.
    + by split.
    + split; [discriminate | by intros [? _]].
  - destruct (Z.ltb_spec (i + 1) (Z.of_nat (length installations))) as [Hlt | Hge].
    + split; [| split].
      * intros j [= <-]. lia.
      * split; [intros [= H]; lia | discriminate].
      * split; [discriminate | intros [_ H]; lia].
    + split; [| split].
      * discriminate.
      * split; discriminate.
      * split; [intros _; split; [reflexivity | lia] | reflexivity].
Qed.

Lemma app_cursor_in_bounds_witness :
  0 <= 0 < Z.of_nat (length [10; 20])
  /\ exists result,
       (App.retrieveGitHubAppRepositories Samples.extract
          (Samples.answers (Samples.app_page Samples.link_to_page_0))
          0 [10; 20] None None).2 = Resolved result
       /\ App.installationIndex result = Some 1
       /\ truthy_num (App.nextPage result) = false.
Proof.
  assert (Hin : 0 <= 0 < Z.of_nat (length [10; 20])) by (cbn; lia).
  split; [exact Hin |].
  destruct (app_cursor_in_bounds Samples.extract
              (Samples.answers (Samples.app_page Samples.link_to_page_0))
              0 [10; 20] None None _ _ Hin eq_refl eq_refl)
    as (result & Hcall & _ & _ & _).
  exists result. split; [exact Hcall |].
  cbn in Hcall. injection Hcall as <-. split; reflexivity.
Defined.

(** X13: of the records of a page only the first one's [link_header] is
    looked at: two pages whose first records carry the same link header (or
    that both have none) give the same [nextPage] and the same
    [installationIndex], whatever else the records hold and whatever link
    headers the later records carry. *)
Theorem app_reads_first_link extractNextPageFromLink openHands_get openHands_get'
    i installations page page' per_page per_page' req req' response response' :
  let call :=
    App.retrieveGitHubAppRepositories extractNextPageFromLink openHands_get
      i installations page per_page in
  let call' :=
    App.retrieveGitHubAppRepositories extractNextPageFromLink openHands_get'
      i installations page' per_page' in
  call.1 = [req] -> openHands_get req = Resolved response ->
  call'.1 = [req'] -> openHands_get' req' = Resolved response' ->
  head response ≫= link_header = head response' ≫= link_header ->
  exists result result',
    call.2 = Resolved result
    /\ call'.2 = Resolved result'
    /\ App.nextPage result = App.nextPage result'
    /\ App.installationIndex result = App.installationIndex result'.
Proof.
  intros call call' Hreq Hget Hreq' Hget' Hhead. do 2 eexists.
  split; [exact (GitHubFacts.app_resolved _ _ _ _ _ _ _ _ Hreq Hget) |].
  split; [exact (GitHubFacts.app_resolved _ _ _ _ _ _ _ _ Hreq' Hget') |].
  cbn [App.nextPage App.installationIndex].
  rewrite !GitHubFacts.link_of_first, Hhead. by split.
Qed.

Lemma app_reads_first_link_witness :
  head (Samples.app_page Samples.link_to_page_2) ≫= link_header
  = head app_page_with_later_link ≫= link_header
  /\ exists result result',
       (App.retrieveGitHubAppRepositories Samples.extract
          (Samples.answers (Samples.app_page Samples.link_to_page_2))
          0 [10; 20] None None).2 = Resolved result
       /\ (App.retrieveGitHubAppRepositories Samples.extract
             (Samples.answers app_page_with_later_link)
             0 [10; 20] (Some 5) (Some 100)).2 = Resolved result'
       /\ App.nextPage result = App.nextPage result'
       /\ App.installationIndex result = App.installationIndex result'.
Proof.
  split; [reflexivity |].
  exact (app_reads_first_link Samples.extract
           (Samples.answers (Samples.app_page Samples.link_to_page_2))
           (Samples.answers app_page_with_later_link)
           0 [10; 20] None (Some 5) None (Some 100) _ _ _ _
           eq_refl eq_refl eq_refl eq_refl eq_refl).
Defined.

(** X14: the [nextPage] of the user listing is decided by the page asked
    for, the github cursor and [has_more] alone: two responses with the same
    github cursor and the same [has_more] give the same [nextPage] for the
    same page, whatever their repositories, their [total_count], the
    cursors of other providers and the page size are; an empty page with
    [has_more] set still leads on to the next page. *)
Theorem user_next_page_reads extractNextPageFromLink openHands_get openHands_get'
    page per_page per_page' req req' response response' :
  let call :=
    User.retrieveGitHubUserRepositories extractNextPageFromLink openHands_get
      page per_page in
  let call' :=
    User.retrieveGitHubUserRepositories extractNextPageFromLink openHands_get'
      page per_page' in
  call.1 = [req] -> openHands_get req = Resolved response ->
  call'.1 = [req'] -> openHands_get' req' = Resolved response' ->
  User.github_cursor (User.pagination response)
  = User.github_cursor (User.pagination response') ->
  User.has_more (User.pagination response)
  = User.has_more (User.pagination response') ->
  exists result result',
    call.2 = Resolved result
    /\ call'.2 = Resolved result'
    /\ User.nextPage result = User.nextPage result'.
Proof.
  intros call call' Hreq Hget Hreq' Hget' Hcursor Hmore. do 2 eexists.
  split; [exact (GitHubFacts.user_resolved _ _ _ _ _ _ Hreq Hget) |].
  split; [exact (GitHubFacts.user_resolved _ _ _ _ _ _ Hreq' Hget') |].
  cbn [User.nextPage]. by rewrite Hcursor, Hmore.
Qed.

Lemma user_next_page_reads_witness :
  exists result result',
    (User.retrieveGitHubUserRepositories Samples.extract
       (Samples.answers first_user_page) (Some 2) None).2 = Resolved result
    /\ (User.retrieveGitHubUserRepositories Samples.extract
          (Samples.answers empty_page_with_more) (Some 2) (Some 100)).2
       = Resolved result'
    /\ User.nextPage result = User.nextPage result'
    /\ User.nextPage result' = Some 3.
Proof.
  destruct (user_next_page_reads Samples.extract
              (Samples.answers first_user_page)
              (Samples.answers empty_page_with_more)
              (Some 2) None (Some 100) _ _ _ _
              eq_refl eq_refl eq_refl eq_refl eq_refl eq_refl)
    as (result & result' & Hcall & Hcall' & Hsame).
  exists result, result'. split; [exact Hcall |]. split; [exact Hcall' |].
  split; [exact Hsame |].
  cbn in Hcall'. by injection Hcall' as <-.
Defined.

End PaginationFacts.
